(** * Static force analysis of the Haptick hexapod: free_body.py

    A shallow embedding of [software/utilities/force_analysis/free_body.py]
    and the properties of its two wrench mappers, [Haptick] (geometry
    derived) and [Calibrated] (table derived).

    Numbers.  Python floats and numpy float64 entries are idealised as real
    numbers: every statement below is about exact arithmetic, rounding and
    overflow are outside the model.  The one IEEE effect that the code can
    reach without any rounding, a NaN born from 0/0 in an array division,
    is kept as an outcome of its own ([Nan]).

    Scalars.  The five arguments of [Haptick] are Python floats, as in the
    module's own call [Haptick(30e-3, 6e-3, 15e-3, 6e-3, 20e-3)]: dividing
    by a zero among them raises [ZeroDivisionError].  A numpy scalar in
    their place would only warn on that division and go on with inf or
    NaN; such calls are outside the model.

    Arrays.  A numpy array carries its shape at run time, so an [ndarray]
    packs a shape with a MathComp matrix of that shape; shape mismatches
    are the [ValueError]s numpy raises. *)

Set Warnings "-notation-overridden,-ambiguous-paths,-notation-incompatible-prefix".
Set Warnings "-rewrite-rw,-redundant-canonical-projection".
From Stdlib Require Import Reals Lra ClassicalEpsilon FunctionalExtensionality.
From Stdlib Require Import String.
From HB Require Import structures.
From mathcomp Require Import ssreflect ssrfun ssrbool eqtype ssrnat div seq choice.
From mathcomp Require Import fintype bigop ssralg matrix.

Set Implicit Arguments.
Unset Strict Implicit.
Unset Printing Implicit Defensive.

Delimit Scope R_scope with Re.
Import GRing.Theory.
Local Open Scope ring_scope.

(* ------------------------------------------------------------------ *)
(** ** The reals as a MathComp field *)

Definition eqr (x y : R) : bool := if Req_dec_T x y then true else false.

Lemma eqrP : Equality.axiom eqr.
Proof. by move=> x y; rewrite /eqr; case: Req_dec_T => H; constructor. Qed.

HB.instance Definition _ := hasDecEq.Build R eqrP.

Definition findr (P : pred R) (n : nat) : option R :=
  match excluded_middle_informative (exists x, P x) with
  | left ex => Some (proj1_sig (constructive_indefinite_description _ ex))
  | right _ => None
  end.

Lemma findr_some (P : pred R) n x : findr P n = Some x -> P x.
Proof.
rewrite /findr; case: excluded_middle_informative => // ex [<-].
exact: (proj2_sig (constructive_indefinite_description _ ex)).
Qed.

Lemma findr_ex (P : pred R) : (exists x, P x) -> exists n, findr P n.
Proof.
by move=> ex; exists 0%N; rewrite /findr; case: excluded_middle_informative.
Qed.

Lemma findr_ext (P Q : pred R) : P =1 Q -> findr P =1 findr Q.
Proof. by move=> /functional_extensionality ->. Qed.

HB.instance Definition _ := hasChoice.Build R findr_some findr_ex findr_ext.

Fact RaddA : associative Rplus.
Proof. by move=> x y z; rewrite Rplus_assoc. Qed.

HB.instance Definition _ :=
  GRing.isZmodule.Build R RaddA Rplus_comm Rplus_0_l Rplus_opp_l.

Fact RmulA : associative Rmult.
Proof. by move=> x y z; rewrite Rmult_assoc. Qed.

Fact Rmul_addl : left_distributive Rmult Rplus.
Proof. by move=> x y z; rewrite Rmult_plus_distr_r. Qed.

Fact R1_neq0 : R1 != R0.
Proof. by apply/eqP; exact: R1_neq_R0. Qed.

HB.instance Definition _ :=
  GRing.Zmodule_isComNzRing.Build R RmulA Rmult_comm Rmult_1_l Rmul_addl R1_neq0.

Fact RmulVf (x : R) : x != 0 -> (Rinv x * x)%Re = 1.
Proof. by move=> /eqP x0; rewrite Rinv_l. Qed.

HB.instance Definition _ := GRing.ComNzRing_isField.Build R RmulVf Rinv_0.

(* ------------------------------------------------------------------ *)
(** ** Python outcomes *)

(** The exceptions the module can raise.  [ValueError] is numpy's shape
    mismatch, [LinAlgError] is [numpy.linalg.LinAlgError] (singular matrix),
    [ZeroDivisionError] is Python's float division by zero and
    [AttributeError] a method that the class does not have. *)
Inductive exn := ZeroDivisionError | LinAlgError | ValueError | AttributeError.

Definition exn_eqb (a b : exn) : bool :=
  match a, b with
  | ZeroDivisionError, ZeroDivisionError | LinAlgError, LinAlgError
  | ValueError, ValueError | AttributeError, AttributeError => true
  | _, _ => false
  end.

Lemma exn_eqP : Equality.axiom exn_eqb.
Proof. by case; case; constructor. Qed.

HB.instance Definition _ := hasDecEq.Build exn exn_eqP.

(** A call returns a value, raises, or (array division 0/0, which numpy
    only warns about) goes on with NaN entries, where the idealisation by
    real numbers ends. *)
Inductive result (T : Type) : Type :=
| Ok of T
| Raise of exn
| Nan.

Arguments Raise {T} e.
Arguments Nan {T}.

Definition bind {T U} (r : result T) (k : T -> result U) : result U :=
  match r with
  | Ok x => k x
  | Raise e => Raise e
  | Nan => Nan
  end.

Notation "x <- r ;; k" := (bind r (fun x => k))
  (at level 100, r at next level, right associativity).

(** The two error kinds of the specification, as the exceptions that
    stand for them in this module: a malformed argument is numpy's
    [ValueError], a singular matrix is [LinAlgError]. *)
Definition ValidationError : exn := ValueError.
Definition NonInvertibleGeometryError : exn := LinAlgError.

(** Python float division: [x / y] raises on [y = 0.0]. *)
Definition py_div (x y : R) : result R :=
  if y == 0 then Raise ZeroDivisionError else Ok (x / y).

(* ------------------------------------------------------------------ *)
(** ** numpy arrays and the primitives the module uses *)

(** One- and two-dimensional float arrays; the shape is part of the value. *)
Inductive ndarray : Type :=
| A1 n of 'rV[R]_n
| A2 m n of 'M[R]_(m, n).

(** [np.hstack((a, b))]: concatenation along the last axis of two arrays of
    the same dimension; two-dimensional arrays must agree on their rows. *)
Definition np_hstack (a b : ndarray) : result ndarray :=
  match a, b with
  | A1 n u, A1 n' v => Ok (A1 (row_mx u v))
  | A2 m n U, A2 m' n' V =>
      match @eqP _ m' m with
      | ReflectT e => Ok (A2 (row_mx U (castmx (e, erefl n') V)))
      | ReflectF _ => Raise ValueError
      end
  | _, _ => Raise ValueError
  end.

(** [np.atleast_2d(a)]: a vector of length n becomes a 1 x n array. *)
Definition np_atleast_2d (a : ndarray) : ndarray :=
  match a with
  | A1 n v => A2 v
  | A2 m n M => A2 M
  end.

(** [a.T]: a one-dimensional array is its own transpose. *)
Definition np_T (a : ndarray) : ndarray :=
  match a with
  | A1 n v => A1 v
  | A2 m n M => A2 M^T
  end.

(** Unary minus, elementwise. *)
Definition np_neg (a : ndarray) : ndarray :=
  match a with
  | A1 n v => A1 (- v)
  | A2 m n M => A2 (- M)
  end.

(** [M @ a] with a two-dimensional left operand: the inner dimensions must
    agree; a one-dimensional right operand is used as a column and the
    result is one-dimensional. *)
Definition np_matmul m n (M : 'M[R]_(m, n)) (a : ndarray) : result ndarray :=
  match a with
  | A1 n' v =>
      match @eqP _ n' n with
      | ReflectT e => Ok (A1 (M *m (castmx (erefl 1%N, e) v)^T)^T)
      | ReflectF _ => Raise ValueError
      end
  | A2 n' p X =>
      match @eqP _ n' n with
      | ReflectT e => Ok (A2 (M *m castmx (e, erefl p) X))
      | ReflectF _ => Raise ValueError
      end
  end.

Lemma take_bound k n (i : 'I_(minn k n)) : (i < n)%N.
Proof. exact: leq_trans (ltn_ord i) (geq_minr k n). Qed.

Lemma drop_bound k n (i : 'I_(n - k)) : (k + i < n)%N.
Proof. by rewrite -ltn_subRL. Qed.

(** [a[:k, ...]] and [a[k:, ...]]: the leading [k] entries along the first
    axis (as many as there are), and the others. *)
Definition np_take k (a : ndarray) : ndarray :=
  match a with
  | A1 n v => A1 (\row_(j < minn k n) v ord0 (Ordinal (take_bound j)))
  | A2 m n M => A2 (\matrix_(i < minn k m, j < n) M (Ordinal (take_bound i)) j)
  end.

Definition np_drop k (a : ndarray) : ndarray :=
  match a with
  | A1 n v => A1 (\row_(j < n - k) v ord0 (Ordinal (drop_bound j)))
  | A2 m n M => A2 (\matrix_(i < m - k, j < n) M (Ordinal (drop_bound i)) j)
  end.

(** [np.linalg.inv]: the inverse of a square matrix, [LinAlgError] when
    there is none.  In exact arithmetic that is all the LAPACK routine
    behind it decides. *)
Definition np_linalg_inv n (M : 'M[R]_n) : result 'M[R]_n :=
  if M \in unitmx then Ok (invmx M) else Raise LinAlgError.

(** [np.linspace(start, stop, num, endpoint=False)]. *)
Definition np_linspace (start stop : R) (num : nat) : 'rV[R]_num :=
  \row_(k < num) (start + INR k * ((stop - start) / INR num))%Re.

Definition np_deg2rad (x : R) : R := (x * (PI / 180))%Re.

(** [np.empty(n)]: the entries are unspecified; every one is overwritten
    before it is read. *)
Definition np_empty n : 'rV[R]_n := 0.

(** [a[start::2] = v] on a vector of length 6, [v] of length 3. *)
Definition set_stride2 (start : nat) (a : 'rV[R]_6) (v : 'rV[R]_3) : 'rV[R]_6 :=
  \row_(i < 6)
    if (start <= i)%N && ~~ odd (i - start) then v ord0 (inord ((i - start)./2))
    else a ord0 i.

(** [np.roll(a, -1, axis=1)]: column j of the result is column j+1 of [a],
    cyclically. *)
Definition np_roll_m1 m n (M : 'M[R]_(m, n.+1)) : 'M[R]_(m, n.+1) :=
  \matrix_(i, j) M i (inord (j.+1 %% n.+1)).

(** [np.linalg.norm(a, axis=0)]: the Euclidean norm of each column. *)
Definition np_linalg_norm_axis0 m n (M : 'M[R]_(m, n)) : 'rV[R]_n :=
  \row_j sqrt (\sum_i M i j * M i j).

(** [a /= v] for a 2-D [a] and a 1-D [v] of its row length: column j is
    divided by [v[j]]; a zero divisor leaves NaN (or inf) in the array. *)
Definition np_idiv m n (M : 'M[R]_(m, n)) (v : 'rV[R]_n) : result 'M[R]_(m, n) :=
  if [forall j, v ord0 j != 0] then Ok (\matrix_(i, j) (M i j / v ord0 j))
  else Nan.

(** [np.cross(a, b, axis=0)] for 3 x n arrays. *)
Definition np_cross_axis0 n (A B : 'M[R]_(3, n)) : 'M[R]_(3, n) :=
  \matrix_(i, j)
    (A (inord (i.+1 %% 3)) j * B (inord (i.+2 %% 3)) j
     - A (inord (i.+2 %% 3)) j * B (inord (i.+1 %% 3)) j).

(** A three-dimensional array, the result of [truss_force_components]. *)
Inductive ndarray3 : Type :=
| A3 a b c of ('I_a -> 'I_b -> 'I_c -> R).

(** [U[..., np.newaxis] * a[np.newaxis, ...]] for a 2-D [U]: shapes
    (p, q, 1) and (1, m, n) (or (1, n) for a 1-D [a]) are broadcast. *)
Definition np_outer_mul p q (U : 'M[R]_(p, q)) (a : ndarray) : result ndarray3 :=
  match a with
  | A1 n v => Ok (A3 (fun i j (k : 'I_n) => U i j * v ord0 k))
  | A2 m n X =>
      match @eqP _ m q with
      | ReflectT e =>
          Ok (A3 (fun i j (k : 'I_n) => U i j * castmx (e, erefl n) X j k))
      | ReflectF _ =>
          match @eqP _ m 1%N with
          | ReflectT e1 =>
              Ok (A3 (fun i j (k : 'I_n) =>
                        U i j * castmx (e1, erefl n) X ord0 k))
          | ReflectF _ =>
              match @eqP _ q 1%N with
              | ReflectT eq1 =>
                  Ok (A3 (fun i (j : 'I_m) (k : 'I_n) =>
                            castmx (erefl p, eq1) U i ord0 * X j k))
              | ReflectF _ => Raise ValueError
              end
          end
      end
  end.

(** [np.vstack((r0, r1, r2))] of three vectors of one length. *)
Definition np_vstack3 n (r0 r1 r2 : 'rV[R]_n) : 'M[R]_(3, n) :=
  \matrix_(i, j) nth 0 [:: r0 ord0 j; r1 ord0 j; r2 ord0 j] i.

Definition np_ones_like n (a : 'rV[R]_n) : 'rV[R]_n := const_mx 1.

(** Values a caller can pass to a constructor that takes anything. *)
Inductive pyval : Type :=
| PyNone
| PyFloat of R
| PyArray of ndarray.

(** [np.array(rows)] for a literal of six rows of six numbers. *)
Definition np_array6 (rows : seq (seq R)) : 'M[R]_6 :=
  \matrix_(i, j) nth 0 (nth [::] rows i) j.

(* ------------------------------------------------------------------ *)
(** ** class Haptick *)

Module Haptick.

Definition TRIANGLE : 'rV[R]_3 := np_linspace 0 (2.0 * PI)%Re 3.

(** The attributes of an instance.  [trusses] is the 3 x 6 x 2 array of
    [np.dstack]: its two layers [trusses[..., 0]] and [trusses[..., 1]]. *)
Record t : Type := Make {
  top_radius : R;
  top_separation : R;
  bottom_radius : R;
  bottom_separation : R;
  height : R;
  trusses : 'M[R]_(3, 6) * 'M[R]_(3, 6);
  _unit_forces : 'M[R]_(3, 6);
  _plucker : 'M[R]_6;
  _inverse_plucker : 'M[R]_6
}.

Definition _joint_positions (angles : 'rV[R]_6) (radius z : R) : 'M[R]_(3, 6) :=
  np_vstack3 (radius *: map_mx cos angles)
             (radius *: map_mx sin angles)
             (map_mx (fun one => one * z) (np_ones_like angles)).

(** [trusses[..., 0] - trusses[..., 1]], before it is normalised. *)
Definition truss_vectors (trusses : 'M[R]_(3, 6) * 'M[R]_(3, 6)) : 'M[R]_(3, 6) :=
  trusses.1 - trusses.2.

Definition _init_trusses
    (top_radius top_separation bottom_radius bottom_separation height : R)
  : result t :=
  (* Create truss vectors *)
  let top_angles := np_empty 6 in
  dt0 <- py_div (0.5 * top_separation)%Re top_radius ;;
  let top_angles := set_stride2 0 top_angles (TRIANGLE - const_mx dt0) in
  dt1 <- py_div (0.5 * top_separation)%Re top_radius ;;
  let top_angles := set_stride2 1 top_angles (TRIANGLE + const_mx dt1) in
  let bottom_angles := np_empty 6 in
  db0 <- py_div (0.5 * bottom_separation)%Re bottom_radius ;;
  let bottom_angles :=
    set_stride2 0 bottom_angles
      (TRIANGLE - const_mx (np_deg2rad 60.0%Re) - const_mx db0) in
  db1 <- py_div (0.5 * bottom_separation)%Re bottom_radius ;;
  let bottom_angles :=
    set_stride2 1 bottom_angles
      (TRIANGLE - const_mx (np_deg2rad 60.0%Re) + const_mx db1) in
  let top_joints := _joint_positions top_angles top_radius height in
  let bottom_joints := _joint_positions bottom_angles bottom_radius 0.0%Re in
  let trusses := (top_joints, np_roll_m1 bottom_joints) in
  (* Calculate unit truss forces and Plucker coordinates *)
  let unit_forces := truss_vectors trusses in
  unit_forces <- np_idiv unit_forces (np_linalg_norm_axis0 unit_forces) ;;
  let moments := np_cross_axis0 trusses.1 unit_forces in
  let plucker : 'M[R]_6 := col_mx unit_forces moments in
  inverse_plucker <- np_linalg_inv plucker ;;
  Ok (Make top_radius top_separation bottom_radius bottom_separation height
           trusses unit_forces plucker inverse_plucker).

Definition __init__
    (top_radius top_separation bottom_radius bottom_separation height : R)
  : result t :=
  _init_trusses top_radius top_separation bottom_radius bottom_separation height.

Definition truss_force_magnitudes (self : t)
    (applied_force applied_torque : ndarray) : result ndarray :=
  wrench <- np_hstack applied_force applied_torque ;;
  np_matmul (_inverse_plucker self) (np_neg (np_T (np_atleast_2d wrench))).

Definition truss_force_components (self : t)
    (applied_force applied_torque : ndarray) : result ndarray3 :=
  magnitudes <- truss_force_magnitudes self applied_force applied_torque ;;
  np_outer_mul (_unit_forces self) magnitudes.

Definition applied (self : t) (truss_force_magnitudes : ndarray)
  : result (ndarray * ndarray) :=
  product <- np_matmul (_plucker self)
               (np_T (np_atleast_2d truss_force_magnitudes)) ;;
  let forces_torques := np_neg product in
  Ok (np_take 3 forces_torques, np_drop 3 forces_torques).

End Haptick.

(* ------------------------------------------------------------------ *)
(** ** class Calibrated *)

Module Calibrated.

Record t : Type := Make {
  _inverse_plucker : 'M[R]_6;
  _plucker : 'M[R]_6
}.

Local Open Scope R_scope.

(** The literal of [__init__]. *)
Definition TABLE : seq (seq R) :=
  [:: [::  1.48862401e-05;  2.76502996e-06;  5.53373707e-06;
           3.98716180e-04;  2.59766013e-04; -3.61150780e-04];
      [::  6.43781132e-06; -1.25650148e-05;  5.20549767e-06;
          -1.75681170e-05;  4.64222079e-04;  3.13188320e-04];
      [:: -7.65757954e-06;  9.39886367e-06;  4.09631079e-06;
          -2.88297511e-04;  1.68500587e-04; -2.76560089e-04];
      [::  7.51952982e-06;  1.00158107e-05;  5.66408608e-06;
          -3.81647492e-04; -2.27210674e-04;  2.84961738e-04];
      [:: -4.40060451e-06; -1.11953744e-05;  3.65874605e-06;
           1.44982980e-05; -3.51931260e-04; -2.82225406e-04];
      [:: -9.03131292e-06;  6.38641612e-07;  2.86527532e-06;
           2.67442245e-04; -1.53313519e-04;  2.09360902e-04]].

Local Close Scope R_scope.

(** [def __init__(self, *args, **kwargs)]. *)
Definition __init__ (args : seq pyval) (kwargs : seq (string * pyval))
  : result t :=
  let inverse_plucker := np_array6 TABLE in
  plucker <- np_linalg_inv inverse_plucker ;;
  Ok (Make inverse_plucker plucker).

Definition applied (self : t) (truss_force_magnitudes : ndarray)
  : result (ndarray * ndarray) :=
  product <- np_matmul (_plucker self)
               (np_T (np_atleast_2d truss_force_magnitudes)) ;;
  let forces_torques := np_neg product in
  Ok (np_take 3 forces_torques, np_drop 3 forces_torques).

End Calibrated.

(* ------------------------------------------------------------------ *)
(** ** The two providers, duck typed *)

(** A caller holds an instance of either class and looks methods up by
    name; [Calibrated] defines [applied] only. *)
Inductive provider : Type :=
| OfHaptick of Haptick.t
| OfCalibrated of Calibrated.t.

Definition call_applied (p : provider) (truss_force_magnitudes : ndarray)
  : result (ndarray * ndarray) :=
  match p with
  | OfHaptick self => Haptick.applied self truss_force_magnitudes
  | OfCalibrated self => Calibrated.applied self truss_force_magnitudes
  end.

Definition call_truss_force_magnitudes (p : provider)
    (applied_force applied_torque : ndarray) : result ndarray :=
  match p with
  | OfHaptick self =>
      Haptick.truss_force_magnitudes self applied_force applied_torque
  | OfCalibrated _ => Raise AttributeError
  end.

Definition forward_matrix (p : provider) : 'M[R]_6 :=
  match p with
  | OfHaptick self => Haptick._plucker self
  | OfCalibrated self => Calibrated._plucker self
  end.

(* ------------------------------------------------------------------ *)
(** * Named parts of the construction, and data for the examples *)

(** ** The geometry behind a [Haptick] instance *)

Section GeometryParts.

Variables top_radius top_separation bottom_radius bottom_separation height : R.

(** The two angle vectors, once both slices are written. *)
Definition top_angles : 'rV[R]_6 :=
  let dt := (0.5 * top_separation)%Re / top_radius in
  set_stride2 1 (set_stride2 0 (np_empty 6) (Haptick.TRIANGLE - const_mx dt))
              (Haptick.TRIANGLE + const_mx dt).

Definition bottom_angles : 'rV[R]_6 :=
  let db := (0.5 * bottom_separation)%Re / bottom_radius in
  set_stride2 1
    (set_stride2 0 (np_empty 6)
       (Haptick.TRIANGLE - const_mx (np_deg2rad 60.0%Re) - const_mx db))
    (Haptick.TRIANGLE - const_mx (np_deg2rad 60.0%Re) + const_mx db).

Definition top_joints : 'M[R]_(3, 6) :=
  Haptick._joint_positions top_angles top_radius height.

Definition bottom_joints : 'M[R]_(3, 6) :=
  Haptick._joint_positions bottom_angles bottom_radius 0.0%Re.

(** Strut j runs between top joint j and bottom joint j+1 (cyclically). *)
Definition struts : 'M[R]_(3, 6) * 'M[R]_(3, 6) :=
  (top_joints, np_roll_m1 bottom_joints).

Definition strut_lengths : 'rV[R]_6 :=
  np_linalg_norm_axis0 (Haptick.truss_vectors struts).

Definition unit_directions : 'M[R]_(3, 6) :=
  \matrix_(i, j) (Haptick.truss_vectors struts i j / strut_lengths ord0 j).

Definition plucker_matrix : 'M[R]_6 :=
  col_mx unit_directions (np_cross_axis0 struts.1 unit_directions).

End GeometryParts.

(** ** A concrete hexapod: unit rings, no pair separation *)

Definition np_array36 (rows : seq (seq R)) : 'M[R]_(3, 6) :=
  \matrix_(i, j) nth 0 (nth [::] rows i) j.

Local Open Scope R_scope.

Definition demo_top_angles : seq R :=
  [:: 0; 0; 2 * (PI / 3); 2 * (PI / 3); PI / 3 + PI; PI / 3 + PI].

Definition demo_bottom_angles : seq R :=
  [:: - (PI / 3); - (PI / 3); PI / 3; PI / 3; PI; PI].

Definition demo_top (h : R) : seq (seq R) :=
  [:: [:: 1; 1; -1/2; -1/2; -1/2; -1/2];
      [:: 0; 0; sqrt 3 / 2; sqrt 3 / 2; - (sqrt 3 / 2); - (sqrt 3 / 2)];
      [:: h; h; h; h; h; h]].

Definition demo_bottom_rolled : seq (seq R) :=
  [:: [:: 1/2; 1/2; 1/2; -1; -1; 1/2];
      [:: - (sqrt 3 / 2); sqrt 3 / 2; sqrt 3 / 2; 0; 0; - (sqrt 3 / 2)];
      [:: 0; 0; 0; 0; 0; 0]].

(** The inverse of the strut matrix of the demo geometry, before the
    columns are scaled by the strut lengths. *)
Definition demo_inverse (h : R) : seq (seq R) :=
  [:: [::  1/3;    sqrt 3 / 9;    1/6 / h; - (sqrt 3 / 9) / h; -1/3 / h;    sqrt 3 / 9];
      [::  1/3; - (sqrt 3 / 9);   1/6 / h;    sqrt 3 / 9 / h;  -1/3 / h; - (sqrt 3 / 9)];
      [:: -1/3;    sqrt 3 / 9;    1/6 / h; 2 * sqrt 3 / 9 / h;    0;        sqrt 3 / 9];
      [::    0; 2 * sqrt 3 / 9;   1/6 / h;    sqrt 3 / 9 / h;   1/3 / h; - (sqrt 3 / 9)];
      [::    0; - (2 * sqrt 3 / 9); 1/6 / h; - (sqrt 3 / 9) / h; 1/3 / h;   sqrt 3 / 9];
      [:: -1/3; - (sqrt 3 / 9);   1/6 / h; - (2 * sqrt 3 / 9) / h;  0;   - (sqrt 3 / 9)]].

Local Close Scope R_scope.

(** The wrench of the example scenario: 20 g hanging from the platform. *)
Definition demo_force : 'rV[R]_3 :=
  \row_j nth 0 [:: 0; 0; (- 0.1962)%Re] j.

Definition demo_torque : 'rV[R]_3 := 0.

(** ** The adjugate of the calibration table *)

(** The adjugate of the table scaled to integers (by 10^15, common factor
    2 * 10^8 removed) and the matching determinant. *)
Local Open Scope R_scope.

Definition TABLE_adj : seq (seq R) :=
  [:: [:: -138021350865017949948588831509407883094813978000;
          12417929401259121721137645115201645066215097200;
          205790158978911067241579694370029398892474102000;
          -143781282347529344865658929958562961407912587800;
          8817010156725696286152132525525769563706971600;
          222764726599843612198782768858463222692646800000];
      [:: -82260328817529221341734196202834739003533405000;
          168528985753823332457928632064103380361808559000;
          -99564575619079043640697301032790348886479933000;
          -87847813327867877434344657549303658064850163500;
          218918941770810487392954804632283132777447461000;
          -110849383624381817457826171764432816894626444000];
      [:: -195837038171233556024920306024160654513613019200;
          -227042980831672975578549990525267488668225497600;
          -260692848779988401223593203501660826969091614400;
          -250221748535557921141519330997455783184349247200;
          -256070088141073862856886374907826625798491928000;
          -347164090151860638161130955495461207651335880000];
      [:: -5128055804343072048418532500802809535635304088;
          1989464714859383401599195756243758816471998728;
          3760225250755393303270043171265416708553395448;
          3353165904418143953647634192173959335127571956;
          2173024463646874267615103210490608103097494696;
          -8489605703856888911569158240290223128950143840];
      [:: -462259743053779182548824009079279354213473048;
          -5207707343651563392685735103015000727720177816;
          -5249923731039449840052026699340568289952549064;
          4773653850374065082588696099749963429453414788;
          5661920722299288736211044937025994236276067720;
          1192951727546942080696862380801249586299072880];
      [:: 3189401528322140188842543157624981976696264746;
          -3226092404783026758853249572291948233332799358;
          4100912900735272098327750768356808910792709434;
          -3297601527553321662080782850261466888491608929;
          4587390366002014383147550096052616545209385030;
          -5500589803019924863057315160981354545315758920]].

Definition TABLE_det : R :=
  -6682354960654794480446017063289558114816254335783656688000 / 1e15.

Local Close Scope R_scope.

(* ------------------------------------------------------------------ *)
(** * Lemmas *)

(** ** Tactics *)

Ltac to_real :=
  rewrite /GRing.add /GRing.mul /GRing.opp /GRing.inv /GRing.zero /GRing.one /=.

Ltac ord6 j := case: j => [[|[|[|[|[|[|j]]]]]] ?] //.
Ltac ord3 i := case: i => [[|[|[|i]]] ?] //.

(** ** Shapes and casts *)

Arguments np_matmul : simpl never.
Arguments np_hstack : simpl never.
Arguments np_take : simpl never.
Arguments np_drop : simpl never.
Arguments np_outer_mul : simpl never.

Lemma matmul_A2 m n p (M : 'M[R]_(m, n)) (X : 'M[R]_(n, p)) :
  np_matmul M (A2 X) = Ok (A2 (M *m X)).
Proof.
rewrite /np_matmul; case: eqP => // e.
by rewrite (eq_irrelevance e (erefl n)) castmx_id.
Qed.

Lemma matmul_A2_mismatch m n n' p (M : 'M[R]_(m, n)) (X : 'M[R]_(n', p)) :
  n' != n -> np_matmul M (A2 X) = Raise ValueError.
Proof. by rewrite /np_matmul; case: eqP. Qed.

Lemma hstack_A2 m n n' (U : 'M[R]_(m, n)) (V : 'M[R]_(m, n')) :
  np_hstack (A2 U) (A2 V) = Ok (A2 (row_mx U V)).
Proof.
rewrite /np_hstack; case: eqP => // e.
by rewrite (eq_irrelevance e (erefl m)) castmx_id.
Qed.

Lemma take3E n (M : 'M[R]_(3 + 3, n)) : np_take 3 (A2 M) = A2 (usubmx M).
Proof.
rewrite /np_take; congr (A2 _); apply/matrixP => i j; rewrite !mxE.
by congr (M _ _); apply: val_inj.
Qed.

Lemma drop3E n (M : 'M[R]_(3 + 3, n)) : np_drop 3 (A2 M) = A2 (dsubmx M).
Proof.
rewrite /np_drop; congr (A2 _); apply/matrixP => i j; rewrite !mxE.
by congr (M _ _); apply: val_inj.
Qed.

(** ** What the three operations compute *)

Section Operations.

Variable self : Haptick.t.
Let P : 'M[R]_(3 + 3, 6) := Haptick._plucker self.
Let Pinv : 'M[R]_(6, 3 + 3) := Haptick._inverse_plucker self.

Lemma magnitudes_batch N (F T : 'M[R]_(N, 3)) :
  Haptick.truss_force_magnitudes self (A2 F) (A2 T)
  = Ok (A2 (- (Pinv *m (row_mx F T)^T))).
Proof.
by rewrite /Haptick.truss_force_magnitudes hstack_A2 /= matmul_A2 mulmxN.
Qed.

Lemma magnitudes_single (f t : 'rV[R]_3) :
  Haptick.truss_force_magnitudes self (A1 f) (A1 t)
  = Ok (A2 (- (Pinv *m (row_mx f t)^T))).
Proof. by rewrite /Haptick.truss_force_magnitudes /= matmul_A2 mulmxN. Qed.

Lemma applied_batch N (S : 'M[R]_(N, 6)) :
  Haptick.applied self (A2 S)
  = Ok (A2 (usubmx (- (P *m S^T))), A2 (dsubmx (- (P *m S^T)))).
Proof. by rewrite /Haptick.applied /= matmul_A2 /= take3E drop3E. Qed.

Lemma applied_single (s : 'rV[R]_6) :
  Haptick.applied self (A1 s)
  = Ok (A2 (usubmx (- (P *m s^T))), A2 (dsubmx (- (P *m s^T)))).
Proof. by rewrite /Haptick.applied /= matmul_A2 /= take3E drop3E. Qed.

End Operations.

Lemma calibrated_applied_batch (self : Calibrated.t) N (S : 'M[R]_(N, 6)) :
  let P : 'M[R]_(3 + 3, 6) := Calibrated._plucker self in
  Calibrated.applied self (A2 S)
  = Ok (A2 (usubmx (- (P *m S^T))), A2 (dsubmx (- (P *m S^T)))).
Proof. by rewrite /Calibrated.applied /= matmul_A2 /= take3E drop3E. Qed.

Lemma calibrated_applied_single (self : Calibrated.t) (s : 'rV[R]_6) :
  let P : 'M[R]_(3 + 3, 6) := Calibrated._plucker self in
  Calibrated.applied self (A1 s)
  = Ok (A2 (usubmx (- (P *m s^T))), A2 (dsubmx (- (P *m s^T)))).
Proof. by rewrite /Calibrated.applied /= matmul_A2 /= take3E drop3E. Qed.

Lemma call_applied_batch (p : provider) N (S : 'M[R]_(N, 6)) :
  let P : 'M[R]_(3 + 3, 6) := forward_matrix p in
  call_applied p (A2 S)
  = Ok (A2 (usubmx (- (P *m S^T))), A2 (dsubmx (- (P *m S^T)))).
Proof.
by case: p => self /=; [exact: applied_batch | exact: calibrated_applied_batch].
Qed.

Lemma call_applied_single (p : provider) (s : 'rV[R]_6) :
  let P : 'M[R]_(3 + 3, 6) := forward_matrix p in
  call_applied p (A1 s)
  = Ok (A2 (usubmx (- (P *m s^T))), A2 (dsubmx (- (P *m s^T)))).
Proof.
by case: p => self /=; [exact: applied_single | exact: calibrated_applied_single].
Qed.

(** A vector of the wrong length, or a batch of such vectors, is refused
    by the matrix product and nothing is returned. *)
Lemma call_applied_bad_length (p : provider) n (s : 'rV[R]_n) :
  n != 6 -> call_applied p (A1 s) = Raise ValueError.
Proof.
by move=> n6; case: p => self;
   rewrite /= /Haptick.applied /Calibrated.applied /= matmul_A2_mismatch.
Qed.

Lemma call_applied_bad_width (p : provider) N n (S : 'M[R]_(N, n)) :
  n != 6 -> call_applied p (A2 S) = Raise ValueError.
Proof.
by move=> n6; case: p => self;
   rewrite /= /Haptick.applied /Calibrated.applied /= matmul_A2_mismatch.
Qed.

(** ** The constructor, step by step *)

Section ConstructorEquations.

Variables top_radius top_separation bottom_radius bottom_separation height : R.

Let top_angles := top_angles top_radius top_separation.
Let bottom_angles := bottom_angles bottom_radius bottom_separation.
Let top_joints := top_joints top_radius top_separation height.
Let bottom_joints := bottom_joints bottom_radius bottom_separation.
Let struts :=
  struts top_radius top_separation bottom_radius bottom_separation height.
Let strut_lengths :=
  strut_lengths top_radius top_separation bottom_radius bottom_separation
    height.
Let unit_directions :=
  unit_directions top_radius top_separation bottom_radius bottom_separation
    height.
Let plucker_matrix :=
  plucker_matrix top_radius top_separation bottom_radius bottom_separation
    height.

Lemma init_zero_radius :
  (top_radius == 0) || (bottom_radius == 0) ->
  Haptick.__init__ top_radius top_separation bottom_radius bottom_separation
    height = Raise ZeroDivisionError.
Proof.
rewrite /Haptick.__init__ /Haptick._init_trusses /py_div.
by case: (top_radius == 0) => //=; case: (bottom_radius == 0).
Qed.

Lemma init_nonzero_radius :
  top_radius != 0 -> bottom_radius != 0 ->
  Haptick.__init__ top_radius top_separation bottom_radius bottom_separation
    height =
  if [forall j, strut_lengths ord0 j != 0] then
    if plucker_matrix \in unitmx then
      Ok (Haptick.Make top_radius top_separation bottom_radius
            bottom_separation height struts unit_directions plucker_matrix
            (invmx plucker_matrix))
    else Raise LinAlgError
  else Nan.
Proof.
move=> /negPf t0 /negPf b0.
rewrite /Haptick.__init__ /Haptick._init_trusses /py_div t0 b0 /=.
rewrite -/top_angles -/bottom_angles -/top_joints -/bottom_joints -/struts.
rewrite /np_idiv -/strut_lengths; case: ifP => //= _.
by rewrite -/unit_directions -/plucker_matrix /np_linalg_inv; case: ifP.
Qed.

End ConstructorEquations.

(** ** Sums of squares, norms *)

Lemma sum_squares_ge0 n (P : pred 'I_n) (f : 'I_n -> R) :
  (0 <= \sum_(i | P i) f i * f i)%Re.
Proof.
elim/big_ind: _ => [|x y x0 y0|i _]; first exact: Rle_refl.
- exact: Rplus_le_le_0_compat.
- exact: Rle_0_sqr.
Qed.

Lemma sum_squares_ge n (f : 'I_n -> R) k : (f k * f k <= \sum_i f i * f i)%Re.
Proof.
rewrite (bigD1 k) //=; have := sum_squares_ge0 (fun i => i != k) f.
move: (\sum_(i < n | _) _) => S S0.
by rewrite -[X in (X <= _)%Re]addr0; apply: Rplus_le_compat_l.
Qed.

Lemma norm_axis0_sqr m n (M : 'M[R]_(m, n)) j :
  np_linalg_norm_axis0 M ord0 j * np_linalg_norm_axis0 M ord0 j
  = \sum_i M i j * M i j.
Proof. by rewrite mxE; apply: sqrt_sqrt; exact: (sum_squares_ge0 xpredT). Qed.

Lemma norm_axis0_neq0 m n (M : 'M[R]_(m, n)) i j :
  M i j != 0 -> np_linalg_norm_axis0 M ord0 j != 0.
Proof.
move=> /eqP Mij; apply/eqP => L0.
have := norm_axis0_sqr M j; rewrite L0 mul0r => S0.
have := sum_squares_ge (fun i => M i j) i; rewrite -S0.
have := Rle_0_sqr (M i j); rewrite /Rsqr => H1 H2.
by apply: Mij; apply: Rsqr_0_uniq; rewrite /Rsqr; apply: Rle_antisym.
Qed.

Lemma joint_positions_z angles radius z j :
  Haptick._joint_positions angles radius z (inord 2) j = z.
Proof.
rewrite /Haptick._joint_positions mxE (@inordK 2 2) //= !mxE.
exact: mul1r.
Qed.

Section GeometryFacts.

Variables top_radius top_separation bottom_radius bottom_separation height : R.

Let g := struts top_radius top_separation bottom_radius bottom_separation height.
Let L := strut_lengths top_radius top_separation bottom_radius
           bottom_separation height.
Let U := unit_directions top_radius top_separation bottom_radius
           bottom_separation height.

(** Every strut climbs by [height]: the top ring is at z = height, the
    bottom ring at z = 0. *)
Lemma truss_vectors_z j : Haptick.truss_vectors g (inord 2) j = height.
Proof.
rewrite /Haptick.truss_vectors /g /struts /top_joints /bottom_joints /=.
rewrite mxE joint_positions_z 2!mxE joint_positions_z.
by rewrite /GRing.add /GRing.opp /=; lra.
Qed.

Lemma strut_lengths_neq0 j : height != 0 -> L ord0 j != 0.
Proof.
by move=> h0; apply: (@norm_axis0_neq0 _ _ _ (inord 2)); rewrite truss_vectors_z.
Qed.

Lemma unit_directions_norm j :
  L ord0 j != 0 -> \sum_i U i j * U i j = 1.
Proof.
move=> L0.
have -> : \sum_i U i j * U i j
   = (\sum_i Haptick.truss_vectors g i j * Haptick.truss_vectors g i j)
     / (L ord0 j * L ord0 j).
  by rewrite mulr_suml; apply: eq_bigr => i _; rewrite mxE mulf_div.
by rewrite -norm_axis0_sqr divff // mulf_neq0.
Qed.

End GeometryFacts.

(** ** The demo hexapod *)

Lemma demo_top_anglesE :
  top_angles 1 0 = \row_j nth 0 demo_top_angles j.
Proof.
apply/rowP => j; rewrite !mxE; ord6 j; rewrite /= ?inordK //=; to_real; lra.
Qed.

Lemma demo_bottom_anglesE :
  bottom_angles 1 0 = \row_j nth 0 demo_bottom_angles j.
Proof.
apply/rowP => j; rewrite !mxE; ord6 j; rewrite /= ?inordK //=;
  rewrite /np_deg2rad; to_real; lra.
Qed.

Lemma sin_4PI3 : sin (PI / 3 + PI) = (- (sqrt 3 / 2))%Re.
Proof. by rewrite neg_sin sin_PI3. Qed.

Lemma cos_4PI3 : cos (PI / 3 + PI) = (-1 / 2)%Re.
Proof. by rewrite neg_cos cos_PI3; lra. Qed.

Lemma demo_top_jointsE h : top_joints 1 0 h = np_array36 (demo_top h).
Proof.
rewrite /top_joints demo_top_anglesE.
apply/matrixP => i j; rewrite /Haptick._joint_positions !mxE; ord3 i; ord6 j;
rewrite /= ?cos_0 ?sin_0 ?cos_2PI3 ?sin_2PI3 ?cos_4PI3 ?sin_4PI3;
to_real; lra.
Qed.

Lemma demo_bottom_rolledE :
  np_roll_m1 (bottom_joints 1 0) = np_array36 demo_bottom_rolled.
Proof.
rewrite /bottom_joints demo_bottom_anglesE.
apply/matrixP => i j; rewrite /Haptick._joint_positions !mxE; ord3 i; ord6 j;
rewrite /= ?inordK //= ?cos_neg ?sin_neg ?cos_PI3 ?sin_PI3 ?cos_PI ?sin_PI;
to_real; lra.
Qed.

Lemma sqrt3_sqr : (sqrt 3 * sqrt 3 = 3)%Re.
Proof. by apply: sqrt_sqrt; lra. Qed.

Section DemoInverse.

Variable h : R.
Hypothesis h0 : h != 0.
Variable ell : 'I_6 -> R.
Hypothesis ell0 : forall j, ell j <> 0.

Let A : 'M[R]_(3, 6) := np_array36 (demo_top h).
Let U : 'M[R]_(3, 6) :=
  \matrix_(i, j) ((A i j - np_array36 demo_bottom_rolled i j) / ell j).
Let M := np_cross_axis0 A U.

Let B (c : nat) : 'M[R]_(6, 3) :=
  \matrix_(j, k) (ell j * nth 0 (nth [::] (demo_inverse h) j) (c + k)).

Ltac demo_entry i k :=
  have /eqP ? := h0;
  rewrite !mxE !big_ord_recl big_ord0 !mxE;
  move: (@ell0 ord0) (@ell0 (lift ord0 ord0)) (@ell0 (lift ord0 (lift ord0 ord0)))
        (@ell0 (lift ord0 (lift ord0 (lift ord0 ord0))))
        (@ell0 (lift ord0 (lift ord0 (lift ord0 (lift ord0 ord0)))))
        (@ell0 (lift ord0 (lift ord0 (lift ord0 (lift ord0 (lift ord0 ord0))))));
  move: (ell ord0) (ell (lift ord0 ord0)) (ell (lift ord0 (lift ord0 ord0)))
        (ell (lift ord0 (lift ord0 (lift ord0 ord0))))
        (ell (lift ord0 (lift ord0 (lift ord0 (lift ord0 ord0)))))
        (ell (lift ord0 (lift ord0 (lift ord0 (lift ord0 (lift ord0 ord0))))))
    => l0 l1 l2 l3 l4 l5 ? ? ? ? ? ?;
  ord3 i; ord3 k; rewrite /= ?inordK //= ?mxE /= ?inordK //= ?mulr1n ?mulr0n;
  to_real; field [sqrt3_sqr]; do !split => //.

Lemma demo_UL : U *m B 0 = 1%:M.
Proof. by apply/matrixP => i k; demo_entry i k. Qed.

Lemma demo_UR : U *m B 3 = 0.
Proof. by apply/matrixP => i k; demo_entry i k. Qed.

Lemma demo_ML : M *m B 0 = 0.
Proof. by apply/matrixP => i k; demo_entry i k. Qed.

Lemma demo_MR : M *m B 3 = 1%:M.
Proof. by apply/matrixP => i k; demo_entry i k. Qed.

Lemma demo_unitmx : (col_mx U M : 'M[R]_(3 + 3)) \in unitmx.
Proof.
have /mulmx1_unit [] // : col_mx U M *m row_mx (B 0) (B 3) = 1%:M.
by rewrite mul_col_row demo_UL demo_UR demo_ML demo_MR -scalar_mx_block.
Qed.

End DemoInverse.

Section Demo.

Variable h : R.
Hypothesis h0 : h != 0.

Lemma demo_plucker_unit : plucker_matrix 1 0 1 0 h \in unitmx.
Proof.
have ell0 j : strut_lengths 1 0 1 0 h ord0 j <> 0.
  by apply/eqP; exact: strut_lengths_neq0.
have EU : unit_directions 1 0 1 0 h =
  \matrix_(i, j) ((np_array36 (demo_top h) i j
                    - np_array36 demo_bottom_rolled i j)
                   / strut_lengths 1 0 1 0 h ord0 j).
  apply/matrixP => i j; rewrite [LHS]mxE /Haptick.truss_vectors /struts /=.
  by rewrite demo_top_jointsE demo_bottom_rolledE !mxE.
rewrite /plucker_matrix /struts /= EU demo_top_jointsE.
exact: (demo_unitmx h0 ell0).
Qed.

Lemma demo_lengths_neq0 : [forall j, strut_lengths 1 0 1 0 h ord0 j != 0].
Proof. by apply/forallP => j; exact: strut_lengths_neq0. Qed.

(** The demo hexapod can be built at every non-zero height. *)
Lemma demo_init :
  Haptick.__init__ 1 0 1 0 h =
  Ok (Haptick.Make 1 0 1 0 h (struts 1 0 1 0 h) (unit_directions 1 0 1 0 h)
        (plucker_matrix 1 0 1 0 h) (invmx (plucker_matrix 1 0 1 0 h))).
Proof.
by rewrite init_nonzero_radius ?oner_neq0 // demo_lengths_neq0 demo_plucker_unit.
Qed.

End Demo.

(** ** What a successful construction guarantees *)

Section Constructed.

Variables top_radius top_separation bottom_radius bottom_separation height : R.

Let g := struts top_radius top_separation bottom_radius bottom_separation height.
Let L := strut_lengths top_radius top_separation bottom_radius
           bottom_separation height.
Let U := unit_directions top_radius top_separation bottom_radius
           bottom_separation height.
Let P := plucker_matrix top_radius top_separation bottom_radius
           bottom_separation height.

(** The outcome of the constructor, case by case. *)
Lemma init_cases :
  Haptick.__init__ top_radius top_separation bottom_radius bottom_separation
    height =
  if (top_radius == 0) || (bottom_radius == 0) then Raise ZeroDivisionError
  else if ~~ [forall j, L ord0 j != 0] then Nan
  else if P \in unitmx then
    Ok (Haptick.Make top_radius top_separation bottom_radius
          bottom_separation height g U P (invmx P))
  else Raise LinAlgError.
Proof.
case: ifP => [|/norP [t0 b0]]; first exact: init_zero_radius.
by rewrite init_nonzero_radius // -/L -/P; case: ifP.
Qed.

Lemma init_OkP self :
  Haptick.__init__ top_radius top_separation bottom_radius bottom_separation
    height = Ok self ->
  [/\ top_radius != 0, bottom_radius != 0, forall j, L ord0 j != 0,
      P \in unitmx
    & self = Haptick.Make top_radius top_separation bottom_radius
               bottom_separation height g U P (invmx P)].
Proof.
rewrite init_cases; case: ifP => // /norP [t0 b0].
case: ifP => // /negbFE /forallP L0; case: ifP => // Pu [<-].
by split.
Qed.

(** With both rings in one plane no strut has a vertical component and
    the strut matrix has a zero row. *)
Lemma flat_unit_directions_z j : height = 0 -> U (inord 2) j = 0.
Proof. by move=> h0; rewrite mxE truss_vectors_z h0 mul0r. Qed.

End Constructed.

Lemma zero_row_not_unit n (A : 'M[R]_n) i : row i A = 0 -> A \notin unitmx.
Proof.
move=> rA; apply/negP => /mulmxV /(congr1 (row i)).
rewrite row_mul rA mul0mx => /rowP /(_ i); rewrite !mxE eqxx.
by move/eqP; rewrite eq_sym oner_eq0.
Qed.

Lemma flat_plucker_singular tr ts br bs :
  plucker_matrix tr ts br bs 0 \notin unitmx.
Proof.
apply: (@zero_row_not_unit (3 + 3) _ (lshift 3 (inord 2))).
apply/rowP => j; rewrite mxE [RHS]mxE /plucker_matrix.
rewrite col_mxEu.
exact: flat_unit_directions_z.
Qed.

(** ** The calibration table is invertible *)

Lemma TABLE_adjP :
  np_array6 Calibrated.TABLE *m np_array6 TABLE_adj = TABLE_det%:M.
Proof.
apply/matrixP => i j; rewrite !mxE !big_ord_recl big_ord0 !mxE.
ord6 i; ord6 j; rewrite /= ?mulr1n ?mulr0n /TABLE_det; to_real; lra.
Qed.

Lemma TABLE_det_neq0 : TABLE_det != 0.
Proof. by apply/eqP; rewrite /TABLE_det; to_real; lra. Qed.

Lemma TABLE_unit : np_array6 Calibrated.TABLE \in unitmx.
Proof.
have /mulmx1_unit [] // :
  np_array6 Calibrated.TABLE *m (TABLE_det^-1 *: np_array6 TABLE_adj) = 1%:M.
by rewrite -scalemxAr TABLE_adjP scale_scalar_mx mulVf // TABLE_det_neq0.
Qed.

(** The constructor succeeds whatever it is given. *)
Lemma calibrated_init args kwargs :
  Calibrated.__init__ args kwargs =
  Ok (Calibrated.Make (np_array6 Calibrated.TABLE)
                      (invmx (np_array6 Calibrated.TABLE))).
Proof. by rewrite /Calibrated.__init__ /np_linalg_inv TABLE_unit. Qed.

(** ** Columns of a batch *)

Lemma col_mulmx m n p (A : 'M[R]_(m, n)) (B : 'M[R]_(n, p)) j :
  col j (A *m B) = A *m col j B.
Proof.
by apply/matrixP => i k; rewrite !mxE; apply: eq_bigr => l _; rewrite !mxE.
Qed.

Lemma col_neg_mulmx_tr m n p (A : 'M[R]_(m, n)) (X : 'M[R]_(p, n)) j :
  col j (- (A *m X^T)) = - (A *m (row j X)^T).
Proof. by rewrite raddfN /= col_mulmx tr_row. Qed.

(** ** forward after inverse *)

Lemma forward_undoes_inverse (P Pinv : 'M[R]_(3 + 3)) N (F T : 'M[R]_(N, 3)) :
  P *m Pinv = 1%:M ->
  let Y := - (P *m ((- (Pinv *m (row_mx F T)^T))^T)^T) in
  usubmx Y = F^T /\ dsubmx Y = T^T.
Proof.
move=> PV /=.
rewrite trmxK mulmxN opprK mulmxA PV mul1mx tr_row_mx.
by rewrite col_mxKu col_mxKd.
Qed.

Section RoundTrip.

Variables (top_radius top_separation bottom_radius bottom_separation height : R).
Variable self : Haptick.t.
Hypothesis built :
  Haptick.__init__ top_radius top_separation bottom_radius bottom_separation
    height = Ok self.

Lemma built_inverse :
  Haptick._plucker self *m Haptick._inverse_plucker self = 1%:M.
Proof. by have [_ _ _ Pu ->] := init_OkP built; rewrite /= mulmxV. Qed.

Lemma haptick_round_trip_batch N (F T : 'M[R]_(N, 3)) :
  (m <- Haptick.truss_force_magnitudes self (A2 F) (A2 T) ;;
   Haptick.applied self (np_T m)) = Ok (A2 F^T, A2 T^T).
Proof.
rewrite magnitudes_batch /= applied_batch.
by have [-> ->] := forward_undoes_inverse F T built_inverse.
Qed.

Lemma haptick_round_trip_single (f t : 'rV[R]_3) :
  (m <- Haptick.truss_force_magnitudes self (A1 f) (A1 t) ;;
   Haptick.applied self (np_T m)) = Ok (A2 f^T, A2 t^T).
Proof.
rewrite magnitudes_single /= applied_batch.
by have [-> ->] := forward_undoes_inverse f t built_inverse.
Qed.

End RoundTrip.

Lemma calibrated_round_trip (cal : Calibrated.t) args kwargs
    N (F T : 'M[R]_(N, 3)) :
  Calibrated.__init__ args kwargs = Ok cal ->
  let Pinv : 'M[R]_(6, 3 + 3) := Calibrated._inverse_plucker cal in
  Calibrated.applied cal (np_T (A2 (- (Pinv *m col_mx F^T T^T))))
  = Ok (A2 F^T, A2 T^T).
Proof.
rewrite calibrated_init => -[<-] /=; rewrite calibrated_applied_batch /=.
have VP : invmx (np_array6 Calibrated.TABLE) *m np_array6 Calibrated.TABLE
          = 1%:M by rewrite mulVmx // TABLE_unit.
rewrite -tr_row_mx.
by have [-> ->] := forward_undoes_inverse F T VP.
Qed.

(** Without the transposition the shapes do not fit, unless the batch
    happens to hold six wrenches. *)
Lemma direct_composition_shape_error (self : Haptick.t)
    N (F T : 'M[R]_(N, 3)) :
  N != 6 ->
  (m <- Haptick.truss_force_magnitudes self (A2 F) (A2 T) ;;
   Haptick.applied self m) = Raise ValueError.
Proof.
move=> N6.
by rewrite magnitudes_batch /= /Haptick.applied /= matmul_A2_mismatch.
Qed.

(** ** More on norms and on the demo hexapod *)

Lemma norm_axis0_ge0 m n (M : 'M[R]_(m, n)) j :
  (0 <= np_linalg_norm_axis0 M ord0 j)%Re.
Proof. by rewrite mxE; exact: sqrt_pos. Qed.

Lemma demo_lengths_any_height h j : strut_lengths 1 0 1 0 h ord0 j != 0.
Proof.
apply: (@norm_axis0_neq0 _ _ _ ord0).
rewrite /Haptick.truss_vectors /struts /= mxE demo_top_jointsE.
rewrite [X in _ + X]mxE demo_bottom_rolledE !mxE.
by apply/eqP; ord6 j; rewrite /=; to_real; lra.
Qed.

(** ** The broadcast product of [truss_force_components] *)

Lemma outer_mul_A2 p q n (U : 'M[R]_(p, q)) (X : 'M[R]_(q, n)) :
  np_outer_mul U (A2 X) = Ok (A3 (fun i j k => U i j * X j k)).
Proof.
rewrite /np_outer_mul; case: eqP => // e.
by rewrite (eq_irrelevance e (erefl q)).
Qed.

Lemma sqrt_sum_scaled (u : 'I_3 -> R) (x : R) :
  \sum_k u k * u k = 1 ->
  sqrt (\sum_k (u k * x) * (u k * x)) = Rabs x.
Proof.
move=> u1.
have -> : \sum_k (u k * x) * (u k * x) = Rsqr x.
  rewrite -[Rsqr x]mul1r -u1 mulr_suml; apply: eq_bigr => k _.
  by rewrite /Rsqr; to_real; ring.
exact: sqrt_Rsqr_abs.
Qed.

(* ------------------------------------------------------------------ *)
(** * The claims *)

(** ** C1: the round trip *)

(** C1, counterexample.  On the demo hexapod, feeding the result of inverse
    straight into forward raises: forward transposes its argument, and
    inverse returns a 6 x 1 array. *)
Lemma round_trip_direct_raises :
  exists self,
    Haptick.__init__ 1 0 1 0 1 = Ok self
    /\ (m <- Haptick.truss_force_magnitudes self (A1 demo_force) (A1 demo_torque) ;;
        Haptick.applied self m) = Raise ValueError.
Proof.
eexists; split; first exact: (demo_init (oner_neq0 _)).
by rewrite magnitudes_single /= /Haptick.applied /= matmul_A2_mismatch.
Qed.

(** C1, as amended.  For a [Haptick] instance whose construction succeeded
    and every batch of N wrenches (or a single wrench), forward applied to
    the transpose of inverse(force, torque) returns the wrenches, as 3 x N
    arrays, in exact arithmetic.  A [Calibrated] instance has no inverse
    operation; for a constructed one, forward applied to the transposed
    negated product of its cached inverse matrix with [force; torque]
    returns the wrenches. *)
Theorem round_trip_through_transpose
    (top_radius top_separation bottom_radius bottom_separation height : R)
    (self : Haptick.t)
    (args : seq pyval) (kwargs : seq (string * pyval)) (cal : Calibrated.t)
    N (F T : 'M[R]_(N, 3)) (f t : 'rV[R]_3) :
  Haptick.__init__ top_radius top_separation bottom_radius bottom_separation
    height = Ok self ->
  Calibrated.__init__ args kwargs = Ok cal ->
  let Cinv : 'M[R]_(6, 3 + 3) := Calibrated._inverse_plucker cal in
  [/\ (m <- Haptick.truss_force_magnitudes self (A2 F) (A2 T) ;;
       Haptick.applied self (np_T m)) = Ok (A2 F^T, A2 T^T),
      (m <- Haptick.truss_force_magnitudes self (A1 f) (A1 t) ;;
       Haptick.applied self (np_T m)) = Ok (A2 f^T, A2 t^T)
    & Calibrated.applied cal (np_T (A2 (- (Cinv *m col_mx F^T T^T))))
      = Ok (A2 F^T, A2 T^T)].
Proof.
move=> built cbuilt /=; split.
- exact: haptick_round_trip_batch built _ _ _.
- exact: haptick_round_trip_single built _ _.
- exact: calibrated_round_trip cbuilt.
Qed.

Lemma round_trip_through_transpose_witness :
  exists self cal,
    [/\ Haptick.__init__ 1 0 1 0 1 = Ok self,
        Calibrated.__init__ [::] [::] = Ok cal,
        (m <- Haptick.truss_force_magnitudes self (A1 demo_force) (A1 demo_torque) ;;
         Haptick.applied self (np_T m)) = Ok (A2 demo_force^T, A2 demo_torque^T)
      & Calibrated.applied cal
          (np_T (A2 (- ((Calibrated._inverse_plucker cal : 'M[R]_(6, 3 + 3))
                        *m col_mx demo_force^T demo_torque^T))))
        = Ok (A2 demo_force^T, A2 demo_torque^T)].
Proof.
eexists; eexists.
have Hh := demo_init (oner_neq0 R); have Hc := calibrated_init [::] [::].
have [_ H2 H3] :=
  round_trip_through_transpose demo_force demo_torque demo_force demo_torque Hh Hc.
by split; [exact: Hh | exact: Hc | exact: H2 | exact: H3].
Defined.

(** ** C2: what inverse and forward compute *)

(** C2, counterexample.  A constructed [Calibrated] instance has no inverse
    operation to call. *)
Lemma calibrated_has_no_inverse :
  exists cal,
    Calibrated.__init__ [::] [::] = Ok cal
    /\ call_truss_force_magnitudes (OfCalibrated cal)
         (A1 demo_force) (A1 demo_torque) = Raise AttributeError.
Proof. by eexists; split; first exact: calibrated_init. Qed.

(** C2, as amended.  For every [Haptick] instance, inverse
    ([truss_force_magnitudes]) returns the negated product of the cached
    inverse matrix with the vertical concatenation [force; torque], for a
    batch of N wrenches (rows of two N x 3 arrays) and for a single pair of
    3-vectors alike.  For every instance of either class, forward
    ([applied]) returns the negated product of the cached forward matrix
    with the strut forces (rows of an N x 6 array, or one 6-vector), split
    into its leading three rows (force) and trailing three (torque).  A
    [Calibrated] instance has no inverse operation at all. *)
Theorem operations_are_negated_products
    (self : Haptick.t) (p : provider) (cal : Calibrated.t)
    N (F T : 'M[R]_(N, 3)) (S : 'M[R]_(N, 6))
    (f t : 'rV[R]_3) (s : 'rV[R]_6) (a b : ndarray) :
  let Pinv : 'M[R]_(6, 3 + 3) := Haptick._inverse_plucker self in
  let P : 'M[R]_(3 + 3, 6) := forward_matrix p in
  [/\ call_truss_force_magnitudes (OfHaptick self) (A2 F) (A2 T)
      = Ok (A2 (- (Pinv *m col_mx F^T T^T))),
      call_truss_force_magnitudes (OfHaptick self) (A1 f) (A1 t)
      = Ok (A2 (- (Pinv *m col_mx f^T t^T))),
      call_applied p (A2 S)
      = Ok (A2 (usubmx (- (P *m S^T))), A2 (dsubmx (- (P *m S^T)))),
      call_applied p (A1 s)
      = Ok (A2 (usubmx (- (P *m s^T))), A2 (dsubmx (- (P *m s^T))))
    & call_truss_force_magnitudes (OfCalibrated cal) a b
      = Raise AttributeError].
Proof.
move=> Pinv P; split=> //=.
- by rewrite magnitudes_batch tr_row_mx.
- by rewrite magnitudes_single tr_row_mx.
- exact: call_applied_batch.
- exact: call_applied_single.
Qed.

(** ** C3: the constructor of [Calibrated] *)

(** C3, counterexample.  Handing the constructor a 2 x 2 identity matrix
    raises nothing: an instance is returned.  Handing it the 6 x 6 identity
    does not make the cached forward matrix the inverse of the identity. *)
Lemma calibrated_accepts_wrong_shape :
  let I2 : 'M[R]_2 := 1%:M in
  let I6 : 'M[R]_6 := 1%:M in
  (exists cal, Calibrated.__init__ [:: PyArray (A2 I2)] [::] = Ok cal)
  /\
  (exists cal,
     Calibrated.__init__ [:: PyArray (A2 I6)] [::] = Ok cal
     /\ Calibrated._plucker cal <> invmx I6).
Proof.
move=> I2 I6; split; eexists; first exact: calibrated_init.
split; first exact: calibrated_init.
rewrite /= /I6 invmx1 => /(congr1 invmx); rewrite invmxK invmx1.
move=> /matrixP /(_ ord0 ord0); rewrite !mxE /= mulr1n.
by to_real; lra.
Qed.

(** C3, as amended.  The constructor accepts any arguments and looks at
    none: it always succeeds, the cached inverse matrix is the built-in
    6 x 6 table and the cached forward matrix is the two-sided matrix
    inverse of that table, which is not singular. *)
Theorem calibrated_init_uses_builtin_table
    (args : seq pyval) (kwargs : seq (string * pyval)) :
  exists cal,
    [/\ Calibrated.__init__ args kwargs = Ok cal,
        Calibrated._inverse_plucker cal = np_array6 Calibrated.TABLE,
        Calibrated._plucker cal *m Calibrated._inverse_plucker cal = 1%:M
      & Calibrated._inverse_plucker cal *m Calibrated._plucker cal = 1%:M].
Proof.
eexists; split; first exact: calibrated_init.
- by [].
- by rewrite /= mulVmx // TABLE_unit.
- by rewrite /= mulmxV // TABLE_unit.
Qed.

(** ** C4: no validation in the constructor of [Haptick] *)

(** C4, counterexample.  A negative height is accepted: the demo hexapod
    with height -1 is built. *)
Lemma init_accepts_negative_height :
  exists self,
    Haptick.__init__ 1 0 1 0 (-1) = Ok self
    /\ (Haptick.height self < 0)%Re.
Proof.
have h0 : (-1 : R) != 0 by rewrite oppr_eq0 oner_neq0.
eexists; split; first exact: (demo_init h0).
by rewrite /=; to_real; lra.
Qed.

(** C4, as amended.  The constructor validates none of its five inputs:
    it never fails with a validation error, its only failures are a
    division by zero and a singular matrix, and when it succeeds the five
    inputs are stored as given, whatever their sign. *)
Theorem init_does_not_validate
    (top_radius top_separation bottom_radius bottom_separation height : R) :
  let r := Haptick.__init__ top_radius top_separation bottom_radius
             bottom_separation height in
  [/\ r <> Raise ValidationError,
      forall e, r = Raise e -> e = ZeroDivisionError \/ e = LinAlgError
    & forall self, r = Ok self ->
        [/\ Haptick.top_radius self = top_radius,
            Haptick.top_separation self = top_separation,
            Haptick.bottom_radius self = bottom_radius,
            Haptick.bottom_separation self = bottom_separation
          & Haptick.height self = height]].
Proof.
move=> r; rewrite /r; split.
- by rewrite init_cases; do ![case: ifP => // _].
- move=> e; rewrite init_cases.
  by do ![case: ifP => // _]; case=> <-; [left | right].
- by move=> self /init_OkP [_ _ _ _ ->].
Qed.

Lemma init_does_not_validate_witness :
  exists self,
    Haptick.__init__ 1 0 1 0 (-1) = Ok self /\ Haptick.height self = -1.
Proof.
have h0 : (-1 : R) != 0 by rewrite oppr_eq0 oner_neq0.
eexists; split; first exact: (demo_init h0).
by have [_ _ /(_ _ (demo_init h0)) []] := init_does_not_validate 1 0 1 0 (-1).
Defined.

(** ** C5: which failure a degenerate geometry gives *)

(** C5, counterexample.  With a top radius of zero the constructor stops at
    the division [0.5 * top_separation / top_radius], before any matrix
    exists; the error is not the singular-matrix one. *)
Lemma init_zero_radius_is_division_error :
  Haptick.__init__ 0 0.006%Re 0.015%Re 0.006%Re 0.020%Re
  = Raise ZeroDivisionError
  /\ ZeroDivisionError <> NonInvertibleGeometryError.
Proof. by split=> //; apply: init_zero_radius; rewrite eqxx. Qed.

(** C5, as amended.  With the scalars given as Python floats, a zero top or
    bottom radius makes the constructor fail with [ZeroDivisionError], at
    the division of a separation by its radius.  The singular-matrix error
    is raised only with both radii non-zero, and it is raised for the flat
    hexapod [Haptick(1, 0, 1, 0, 0)], whose matrix has rows of zeros.  Both
    errors leave the constructor itself. *)
Theorem init_failure_kinds
    (top_radius top_separation bottom_radius bottom_separation height : R) :
  let r := Haptick.__init__ top_radius top_separation bottom_radius
             bottom_separation height in
  [/\ (top_radius == 0) || (bottom_radius == 0) -> r = Raise ZeroDivisionError,
      r = Raise NonInvertibleGeometryError ->
      top_radius != 0 /\ bottom_radius != 0
    & Haptick.__init__ 1 0 1 0 0 = Raise NonInvertibleGeometryError].
Proof.
move=> r; split; first exact: init_zero_radius.
- by rewrite /r init_cases; case: ifP => // /norP [].
- rewrite init_cases oner_eq0 /=.
  have -> /= : [forall j, strut_lengths 1 0 1 0 0 ord0 j != 0].
    by apply/forallP => j; exact: demo_lengths_any_height.
  by rewrite (negPf (flat_plucker_singular _ _ _ _)).
Qed.

Lemma init_failure_kinds_witness :
  [/\ Haptick.__init__ 0 0 1 0 1 = Raise ZeroDivisionError,
      Haptick.__init__ 1 0 1 0 0 = Raise NonInvertibleGeometryError
    & (1 : R) != 0 /\ (1 : R) != 0].
Proof.
have [H1 _ H3] := init_failure_kinds 0 0 1 0 1.
have [_ H2 _] := init_failure_kinds 1 0 1 0 0.
split; first by apply: H1; rewrite eqxx.
- exact: H3.
- exact: (H2 H3).
Defined.

(** ** C6: the direction of the unit vectors *)

(** C6, counterexample.  On the demo hexapod of height 1 the vertical
    component of the unit vector of strut 0 is positive, while bottom joint
    minus top joint, normalised, has a negative one. *)
Lemma unit_force_points_upwards :
  exists self,
    Haptick.__init__ 1 0 1 0 1 = Ok self
    /\ let top := (Haptick.trusses self).1 in
       let bottom := (Haptick.trusses self).2 in
       Haptick._unit_forces self (inord 2) ord0
       <> (bottom - top) (inord 2) ord0
          / np_linalg_norm_axis0 (bottom - top) ord0 ord0.
Proof.
eexists; split; first exact: (demo_init (oner_neq0 _)).
rewrite /= [X in X <> _]mxE truss_vectors_z.
set L := strut_lengths _ _ _ _ _ _ _; set L' := np_linalg_norm_axis0 _ _ _.
have E : (np_roll_m1 (bottom_joints 1 0) - top_joints 1 0 1) (inord 2) ord0
         = -1.
  rewrite mxE [X in X + _]mxE /bottom_joints joint_positions_z.
  by rewrite mxE /top_joints joint_positions_z; to_real; lra.
have L0 : L != 0 by exact: strut_lengths_neq0 (oner_neq0 _).
have L'0 : L' != 0 by apply: (@norm_axis0_neq0 _ _ _ (inord 2)); rewrite E oppr_eq0 oner_neq0.
have Lge := norm_axis0_ge0 (Haptick.truss_vectors (struts 1 0 1 0 1)) ord0.
have L'ge := norm_axis0_ge0 (np_roll_m1 (bottom_joints 1 0) - top_joints 1 0 1) ord0.
rewrite E -/L' -/L in Lge L'ge *.
have Lpos : (0 < L)%Re by case: Lge => // LE; rewrite -LE eqxx in L0.
have L'pos : (0 < L')%Re by case: L'ge => // LE; rewrite -LE eqxx in L'0.
have := Rinv_0_lt_compat _ Lpos; have := Rinv_0_lt_compat _ L'pos.
by to_real => ? ? ?; lra.
Qed.

(** C6, as amended.  For a successfully constructed [Haptick] instance and
    every strut j, the top layer of [trusses] holds top joint j, the bottom
    layer bottom joint j+1 (cyclically), and the cached unit direction of
    strut j is top joint minus bottom joint divided by its Euclidean norm,
    which is not zero: it points from the bottom joint to the top joint. *)
Theorem unit_forces_point_from_bottom_to_top
    (top_radius top_separation bottom_radius bottom_separation height : R)
    (self : Haptick.t) (i : 'I_3) (j : 'I_6) :
  Haptick.__init__ top_radius top_separation bottom_radius bottom_separation
    height = Ok self ->
  let top := (Haptick.trusses self).1 in
  let bottom := (Haptick.trusses self).2 in
  [/\ top i j = top_joints top_radius top_separation height i j,
      bottom i j
      = bottom_joints bottom_radius bottom_separation i (inord (j.+1 %% 6)),
      np_linalg_norm_axis0 (top - bottom) ord0 j != 0
    & Haptick._unit_forces self i j
      = (top i j - bottom i j) / np_linalg_norm_axis0 (top - bottom) ord0 j].
Proof.
move=> /init_OkP [_ _ L0 _ ->] /=; split=> //.
- by rewrite mxE.
- by rewrite !mxE.
Qed.

Lemma unit_forces_point_from_bottom_to_top_witness :
  exists self,
    Haptick.__init__ 1 0 1 0 1 = Ok self
    /\ Haptick._unit_forces self (inord 2) ord0
       = ((Haptick.trusses self).1 (inord 2) ord0
          - (Haptick.trusses self).2 (inord 2) ord0)
         / np_linalg_norm_axis0
             ((Haptick.trusses self).1 - (Haptick.trusses self).2) ord0 ord0.
Proof.
have Hh := demo_init (oner_neq0 R).
eexists; split; first exact: Hh.
by have [] := unit_forces_point_from_bottom_to_top (inord 2) ord0 Hh.
Defined.

(** ** C7: a batch is processed row by row *)

(** C7.  For a batch of N wrenches and each of its rows n, column n of the
    inverse of the whole batch is the inverse of row n alone; for a batch
    of N strut-force vectors, column n of the force and of the torque that
    forward returns is the force and the torque of row n alone. *)
Theorem batch_is_rowwise
    (self : Haptick.t) (p : provider)
    N (F T : 'M[R]_(N, 3)) (S : 'M[R]_(N, 6)) (n : 'I_N) :
  (exists (B : 'M[R]_(6, N)) (b : 'M[R]_(6, 1)),
     [/\ Haptick.truss_force_magnitudes self (A2 F) (A2 T) = Ok (A2 B),
         Haptick.truss_force_magnitudes self (A1 (row n F)) (A1 (row n T))
         = Ok (A2 b)
       & col n B = b])
  /\
  (exists (Fo To : 'M[R]_(3, N)) (fo to : 'M[R]_(3, 1)),
     [/\ call_applied p (A2 S) = Ok (A2 Fo, A2 To),
         call_applied p (A1 (row n S)) = Ok (A2 fo, A2 to),
         col n Fo = fo & col n To = to]).
Proof.
split.
- eexists; eexists; split; [exact: magnitudes_batch|exact: magnitudes_single|].
  by rewrite col_neg_mulmx_tr row_row_mx.
- eexists; eexists; eexists; eexists.
  split; [exact: call_applied_batch|exact: call_applied_single| |].
  + by rewrite -col_neg_mulmx_tr; apply/matrixP => i j; rewrite !mxE.
  + by rewrite -col_neg_mulmx_tr; apply/matrixP => i j; rewrite !mxE.
Qed.

(** ** C8: components against magnitudes *)

(** C8.  For a successfully constructed [Haptick] instance, every batch of
    wrenches (and every single wrench), every strut i and sample n, the
    vector that [truss_force_components] returns for them is the scalar of
    [truss_force_magnitudes] times the cached unit direction of the strut,
    and its Euclidean norm is the absolute value of that scalar. *)
Theorem components_match_magnitudes
    (top_radius top_separation bottom_radius bottom_separation height : R)
    (self : Haptick.t) N (F T : 'M[R]_(N, 3)) (f t : 'rV[R]_3) :
  Haptick.__init__ top_radius top_separation bottom_radius bottom_separation
    height = Ok self ->
  (exists (Mg : 'M[R]_(6, N)) (C : 'I_3 -> 'I_6 -> 'I_N -> R),
     [/\ Haptick.truss_force_magnitudes self (A2 F) (A2 T) = Ok (A2 Mg),
         Haptick.truss_force_components self (A2 F) (A2 T) = Ok (A3 C),
         forall k i n, C k i n = Haptick._unit_forces self k i * Mg i n
       & forall i n, sqrt (\sum_k C k i n * C k i n) = Rabs (Mg i n)])
  /\
  (exists (mg : 'M[R]_(6, 1)) (c : 'I_3 -> 'I_6 -> 'I_1 -> R),
     [/\ Haptick.truss_force_magnitudes self (A1 f) (A1 t) = Ok (A2 mg),
         Haptick.truss_force_components self (A1 f) (A1 t) = Ok (A3 c),
         forall k i n, c k i n = Haptick._unit_forces self k i * mg i n
       & forall i n, sqrt (\sum_k c k i n * c k i n) = Rabs (mg i n)]).
Proof.
move=> built.
have U1 i : \sum_k Haptick._unit_forces self k i
                   * Haptick._unit_forces self k i = 1.
  have [_ _ L0 _ ->] := init_OkP built.
  exact: unit_directions_norm.
split.
- eexists; eexists; split; first exact: magnitudes_batch.
  + by rewrite /Haptick.truss_force_components magnitudes_batch /= outer_mul_A2.
  + by [].
  + by move=> i n; exact: sqrt_sum_scaled.
- eexists; eexists; split; first exact: magnitudes_single.
  + by rewrite /Haptick.truss_force_components magnitudes_single /= outer_mul_A2.
  + by [].
  + by move=> i n; exact: sqrt_sum_scaled.
Qed.

Lemma components_match_magnitudes_witness :
  exists self (mg : 'M[R]_(6, 1)) (c : 'I_3 -> 'I_6 -> 'I_1 -> R),
    [/\ Haptick.__init__ 1 0 1 0 1 = Ok self,
        Haptick.truss_force_magnitudes self (A1 demo_force) (A1 demo_torque)
        = Ok (A2 mg),
        Haptick.truss_force_components self (A1 demo_force) (A1 demo_torque)
        = Ok (A3 c)
      & forall i n, sqrt (\sum_k c k i n * c k i n) = Rabs (mg i n)].
Proof.
have Hh := demo_init (oner_neq0 R).
have [_ [mg [c [H1 H2 _ H4]]]] :=
  components_match_magnitudes demo_force demo_torque demo_force demo_torque Hh.
by eexists; exists mg, c; split; [exact: Hh | | |].
Defined.

(** ** C9: a strut-force vector of the wrong length *)

(** C9.  forward on a strut-force vector whose length is not 6 (5, say), or
    on a batch of such vectors, raises the validation error (numpy's
    [ValueError]) and returns nothing. *)
Theorem forward_rejects_wrong_length
    (p : provider) n N (s : 'rV[R]_n) (S : 'M[R]_(N, n)) :
  n != 6 ->
  call_applied p (A1 s) = Raise ValidationError
  /\ call_applied p (A2 S) = Raise ValidationError.
Proof.
by move=> n6; split; [exact: call_applied_bad_length|exact: call_applied_bad_width].
Qed.

Lemma forward_rejects_wrong_length_witness :
  exists cal,
    Calibrated.__init__ [::] [::] = Ok cal
    /\ call_applied (OfCalibrated cal) (A1 (0 : 'rV[R]_5))
       = Raise ValidationError.
Proof.
have n6 : (5 != 6)%N by [].
pose cal := Calibrated.Make (np_array6 Calibrated.TABLE)
                            (invmx (np_array6 Calibrated.TABLE)).
exists cal; split; first exact: calibrated_init.
have [H _] := @forward_rejects_wrong_length (OfCalibrated cal) 5 1
                (0 : 'rV[R]_5) (0 : 'M[R]_(1, 5)) n6.
exact: H.
Defined.

(** ** C10: the constructor of [Calibrated] ignores its arguments *)

(** C10.  Two constructions of [Calibrated], whatever their arguments,
    return instances with the same cached matrices, the built-in table and
    its inverse, and forward gives the same outcome on the same input. *)
Theorem calibrated_init_ignores_arguments
    (args1 args2 : seq pyval) (kwargs1 kwargs2 : seq (string * pyval)) :
  exists cal1 cal2,
    [/\ Calibrated.__init__ args1 kwargs1 = Ok cal1,
        Calibrated.__init__ args2 kwargs2 = Ok cal2,
        Calibrated._inverse_plucker cal1 = np_array6 Calibrated.TABLE
        /\ Calibrated._inverse_plucker cal2 = np_array6 Calibrated.TABLE,
        Calibrated._plucker cal1 = invmx (np_array6 Calibrated.TABLE)
        /\ Calibrated._plucker cal2 = invmx (np_array6 Calibrated.TABLE)
      & forall x, Calibrated.applied cal1 x = Calibrated.applied cal2 x].
Proof.
by eexists; eexists; split; [exact: calibrated_init|exact: calibrated_init| | |].
Qed.

(** ** The cached inverse, from the left *)

Lemma built_left_inverse
    (top_radius top_separation bottom_radius bottom_separation height : R)
    (self : Haptick.t) :
  Haptick.__init__ top_radius top_separation bottom_radius bottom_separation
    height = Ok self ->
  Haptick._inverse_plucker self *m Haptick._plucker self = 1%:M.
Proof. by move=> /init_OkP [_ _ _ Pu ->] /=; rewrite mulVmx. Qed.

(* ------------------------------------------------------------------ *)
(** * Further properties of the module *)

(** ** Invariants of a constructed [Haptick] instance *)

(** X1.  Every joint of a constructed instance lies on its ring: the top
    joints on the circle of radius [top_radius] in the plane z = [height],
    the bottom joints on the circle of radius [bottom_radius] in the plane
    z = 0. *)
Theorem joints_lie_on_their_rings
    (top_radius top_separation bottom_radius bottom_separation height : R)
    (self : Haptick.t) (j : 'I_6) :
  Haptick.__init__ top_radius top_separation bottom_radius bottom_separation
    height = Ok self ->
  let top := (Haptick.trusses self).1 in
  let bottom := (Haptick.trusses self).2 in
  [/\ top ord0 j * top ord0 j + top (inord 1) j * top (inord 1) j
      = top_radius * top_radius,
      top (inord 2) j = height,
      bottom ord0 j * bottom ord0 j + bottom (inord 1) j * bottom (inord 1) j
      = bottom_radius * bottom_radius
    & bottom (inord 2) j = 0].
Proof.
move=> /init_OkP [_ _ _ _ ->] /=.
have circle r a :
  (r * cos a) * (r * cos a) + (r * sin a) * (r * sin a) = r * r.
  have := sin2_cos2 a; rewrite /Rsqr; to_real => H.
  by rewrite -[RHS]Rmult_1_r -H; ring.
have on_ring angles r z k :
  Haptick._joint_positions angles r z ord0 k
    * Haptick._joint_positions angles r z ord0 k
  + Haptick._joint_positions angles r z (inord 1) k
    * Haptick._joint_positions angles r z (inord 1) k = r * r.
  rewrite /Haptick._joint_positions 2![np_vstack3 _ _ _ _ _]mxE.
  by rewrite (@inordK 2 1) //= !mxE; exact: circle.
split.
- exact: on_ring.
- exact: joint_positions_z.
- by rewrite 2![np_roll_m1 _ _ _]mxE; exact: on_ring.
- by rewrite mxE /bottom_joints joint_positions_z; to_real; lra.
Qed.

Lemma joints_lie_on_their_rings_witness :
  exists self,
    Haptick.__init__ 1 0 1 0 1 = Ok self
    /\ (Haptick.trusses self).1 (inord 2) ord0 = 1.
Proof.
have Hh := demo_init (oner_neq0 R).
eexists; split; first exact: Hh.
by have [] := joints_lie_on_their_rings ord0 Hh.
Defined.

(** X2.  After a successful construction every cached unit direction has
    Euclidean norm 1, and every strut is at least [|height|] long. *)
Theorem unit_forces_have_unit_norm
    (top_radius top_separation bottom_radius bottom_separation height : R)
    (self : Haptick.t) (j : 'I_6) :
  Haptick.__init__ top_radius top_separation bottom_radius bottom_separation
    height = Ok self ->
  np_linalg_norm_axis0 (Haptick._unit_forces self) ord0 j = 1
  /\ (Rabs height
      <= np_linalg_norm_axis0 (Haptick.truss_vectors (Haptick.trusses self))
           ord0 j)%Re.
Proof.
move=> /init_OkP [_ _ L0 _ ->] /=; split.
  by rewrite mxE unit_directions_norm //; exact: sqrt_1.
rewrite mxE -sqrt_Rsqr_abs; apply: sqrt_le_1_alt.
have := sum_squares_ge
  (fun i => Haptick.truss_vectors
     (struts top_radius top_separation bottom_radius bottom_separation height)
     i j) (inord 2).
by rewrite truss_vectors_z.
Qed.

Lemma unit_forces_have_unit_norm_witness :
  exists self,
    Haptick.__init__ 1 0 1 0 1 = Ok self
    /\ np_linalg_norm_axis0 (Haptick._unit_forces self) ord0 ord0 = 1.
Proof.
have Hh := demo_init (oner_neq0 R).
eexists; split; first exact: Hh.
by have [] := unit_forces_have_unit_norm ord0 Hh.
Defined.

(** X3.  The two cached matrices of a constructed instance are inverse to
    each other, on both sides. *)
Theorem cached_matrices_are_inverses
    (top_radius top_separation bottom_radius bottom_separation height : R)
    (self : Haptick.t) :
  Haptick.__init__ top_radius top_separation bottom_radius bottom_separation
    height = Ok self ->
  Haptick._plucker self *m Haptick._inverse_plucker self = 1%:M
  /\ Haptick._inverse_plucker self *m Haptick._plucker self = 1%:M.
Proof.
by move=> built; rewrite (built_inverse built) (built_left_inverse built).
Qed.

Lemma cached_matrices_are_inverses_witness :
  exists self,
    Haptick.__init__ 1 0 1 0 1 = Ok self
    /\ Haptick._plucker self *m Haptick._inverse_plucker self = 1%:M.
Proof.
have Hh := demo_init (oner_neq0 R).
eexists; split; first exact: Hh.
by have [] := cached_matrices_are_inverses Hh.
Defined.

(** A cross product is orthogonal to both of its factors. *)
Lemma cross_axis0_orthogonal n (A B : 'M[R]_(3, n)) j :
  \sum_i A i j * np_cross_axis0 A B i j = 0
  /\ \sum_i B i j * np_cross_axis0 A B i j = 0.
Proof.
have E m (k : 'I_3) : (m %% 3)%N = k -> inord (m %% 3) = k.
  by move=> ->; exact: inord_val.
rewrite !big_ord_recl !big_ord0 !mxE /=.
rewrite ?(E 1%N (lift ord0 ord0)) // ?(E 2%N (lift ord0 (lift ord0 ord0))) //.
rewrite ?(E 3%N ord0) // ?(E 4%N (lift ord0 ord0)) //.
by split; to_real; ring.
Qed.

(** X4.  In every column of the cached strut matrix the moment (rows 3-5)
    is the cross product of the top joint with the unit direction (rows
    0-2): it is orthogonal to both. *)
Theorem moments_are_orthogonal
    (top_radius top_separation bottom_radius bottom_separation height : R)
    (self : Haptick.t) (j : 'I_6) :
  Haptick.__init__ top_radius top_separation bottom_radius bottom_separation
    height = Ok self ->
  let P : 'M[R]_(3 + 3, 6) := Haptick._plucker self in
  [/\ usubmx P = Haptick._unit_forces self,
      dsubmx P
      = np_cross_axis0 (Haptick.trusses self).1 (Haptick._unit_forces self),
      \sum_i usubmx P i j * dsubmx P i j = 0
    & \sum_i (Haptick.trusses self).1 i j * dsubmx P i j = 0].
Proof.
move=> /init_OkP [_ _ _ _ ->] /=.
rewrite /plucker_matrix col_mxKu col_mxKd; split=> //.
- by have [] := cross_axis0_orthogonal
    (struts top_radius top_separation bottom_radius bottom_separation height).1
    (unit_directions top_radius top_separation bottom_radius
       bottom_separation height) j.
- by have [] := cross_axis0_orthogonal
    (struts top_radius top_separation bottom_radius bottom_separation height).1
    (unit_directions top_radius top_separation bottom_radius
       bottom_separation height) j.
Qed.

Lemma moments_are_orthogonal_witness :
  exists self,
    Haptick.__init__ 1 0 1 0 1 = Ok self
    /\ \sum_i usubmx (Haptick._plucker self : 'M[R]_(3 + 3, 6)) i ord0
              * dsubmx (Haptick._plucker self : 'M[R]_(3 + 3, 6)) i ord0 = 0.
Proof.
have Hh := demo_init (oner_neq0 R).
eexists; split; first exact: Hh.
by have [] := moments_are_orthogonal ord0 Hh.
Defined.

(** ** How the operations compose *)

(** X5.  [truss_force_magnitudes] after [applied]: on a constructed
    instance, the wrenches that [applied] returns for a batch of strut
    forces, transposed back to rows, are mapped by
    [truss_force_magnitudes] to those strut forces (as a 6 x N array). *)
Theorem magnitudes_undo_applied
    (top_radius top_separation bottom_radius bottom_separation height : R)
    (self : Haptick.t) N (S : 'M[R]_(N, 6)) :
  Haptick.__init__ top_radius top_separation bottom_radius bottom_separation
    height = Ok self ->
  (wrench <- Haptick.applied self (A2 S) ;;
   Haptick.truss_force_magnitudes self (np_T wrench.1) (np_T wrench.2))
  = Ok (A2 S^T).
Proof.
move=> built; have VP := built_left_inverse built.
rewrite applied_batch /= magnitudes_batch tr_row_mx !trmxK vsubmxK.
by rewrite mulmxN opprK mulmxA VP mul1mx.
Qed.

Lemma magnitudes_undo_applied_witness :
  exists self,
    Haptick.__init__ 1 0 1 0 1 = Ok self
    /\ (wrench <- Haptick.applied self (A2 (1%:M : 'M[R]_6)) ;;
        Haptick.truss_force_magnitudes self (np_T wrench.1) (np_T wrench.2))
       = Ok (A2 (1%:M : 'M[R]_6)^T).
Proof.
have Hh := demo_init (oner_neq0 R).
by eexists; split; [exact: Hh | exact: (magnitudes_undo_applied _ Hh)].
Defined.

(** X6.  [truss_force_magnitudes] is linear in the wrench, on any
    instance: the strut forces of a sum of two batches of wrenches are the
    sums of the strut forces, scaling the wrenches scales the strut forces,
    and no load gives no strut force. *)
Theorem magnitudes_are_linear
    (self : Haptick.t) N (F1 T1 F2 T2 : 'M[R]_(N, 3)) (c : R) :
  exists B1 B2 : 'M[R]_(6, N),
    [/\ Haptick.truss_force_magnitudes self (A2 F1) (A2 T1) = Ok (A2 B1),
        Haptick.truss_force_magnitudes self (A2 F2) (A2 T2) = Ok (A2 B2),
        Haptick.truss_force_magnitudes self (A2 (F1 + F2)) (A2 (T1 + T2))
        = Ok (A2 (B1 + B2)),
        Haptick.truss_force_magnitudes self (A2 (c *: F1)) (A2 (c *: T1))
        = Ok (A2 (c *: B1))
      & Haptick.truss_force_magnitudes self
          (A2 (0 : 'M[R]_(N, 3))) (A2 (0 : 'M[R]_(N, 3)))
        = Ok (A2 (0 : 'M[R]_(6, N)))].
Proof.
eexists; eexists; split; try exact: magnitudes_batch.
- rewrite magnitudes_batch; congr (Ok (A2 _)).
  by rewrite -add_row_mx linearD /= mulmxDr opprD.
- rewrite magnitudes_batch; congr (Ok (A2 _)).
  by rewrite -scale_row_mx linearZ /= -scalemxAr scalerN.
- rewrite magnitudes_batch; congr (Ok (A2 _)).
  by rewrite row_mx0 trmx0 mulmx0 oppr0.
Qed.

(** X7.  [applied] is linear in the strut forces, for an instance of
    either class: force and torque of a sum are the sums, scaling scales
    both, and zero strut forces give zero force and zero torque. *)
Theorem applied_is_linear
    (p : provider) N (S1 S2 : 'M[R]_(N, 6)) (c : R) :
  exists Fo1 To1 Fo2 To2 : 'M[R]_(3, N),
    [/\ call_applied p (A2 S1) = Ok (A2 Fo1, A2 To1),
        call_applied p (A2 S2) = Ok (A2 Fo2, A2 To2),
        call_applied p (A2 (S1 + S2)) = Ok (A2 (Fo1 + Fo2), A2 (To1 + To2)),
        call_applied p (A2 (c *: S1)) = Ok (A2 (c *: Fo1), A2 (c *: To1))
      & call_applied p (A2 (0 : 'M[R]_(N, 6)))
        = Ok (A2 (0 : 'M[R]_(3, N)), A2 (0 : 'M[R]_(3, N)))].
Proof.
do 4![eexists]; split; try exact: call_applied_batch.
- rewrite call_applied_batch /=.
  by rewrite linearD /= mulmxDr opprD !linearD.
- rewrite call_applied_batch /=.
  by rewrite linearZ /= -scalemxAr -scalerN !linearZ.
- rewrite call_applied_batch /=.
  by rewrite trmx0 mulmx0 oppr0 !linear0.
Qed.

(** X8.  Static equilibrium: on a constructed instance the six strut force
    vectors that [truss_force_components] returns for a wrench add up to
    minus the applied force, and their moments about the origin, taken at
    the top joints, add up to minus the applied torque. *)
Theorem strut_forces_balance_the_load
    (top_radius top_separation bottom_radius bottom_separation height : R)
    (self : Haptick.t) N (F T : 'M[R]_(N, 3)) :
  Haptick.__init__ top_radius top_separation bottom_radius bottom_separation
    height = Ok self ->
  exists C : 'I_3 -> 'I_6 -> 'I_N -> R,
    [/\ Haptick.truss_force_components self (A2 F) (A2 T) = Ok (A3 C),
        forall k n, \sum_i C k i n = - F n k
      & forall k n,
          \sum_i np_cross_axis0 (Haptick.trusses self).1
                   (\matrix_(k', i') C k' i' n) k i
          = - T n k].
Proof.
move=> built; have PV := built_inverse built.
have [_ _ _ _ Eself] := init_OkP built.
eexists; split.
- by rewrite /Haptick.truss_force_components magnitudes_batch /= outer_mul_A2.
- move=> k n.
  set Mg := - (_ *m _).
  have -> : \sum_i Haptick._unit_forces self k i * Mg i n
            = (usubmx (Haptick._plucker self : 'M[R]_(3 + 3, 6)) *m Mg) k n.
    rewrite mxE; apply: eq_bigr => i _; congr (_ * _).
    by rewrite Eself /= /plucker_matrix col_mxKu.
  rewrite mul_usub_mx /Mg mulmxN mulmxA PV mul1mx tr_row_mx.
  by rewrite linearN /= col_mxKu !mxE.
- move=> k n.
  set Mg := - (_ *m _).
  have -> : \sum_i np_cross_axis0 (Haptick.trusses self).1
                     (\matrix_(k', i') (Haptick._unit_forces self k' i'
                                        * Mg i' n)) k i
            = (dsubmx (Haptick._plucker self : 'M[R]_(3 + 3, 6)) *m Mg) k n.
    rewrite mxE; apply: eq_bigr => i _.
    rewrite Eself /= /plucker_matrix col_mxKd !mxE.
    by to_real; ring.
  rewrite mul_dsub_mx /Mg mulmxN mulmxA PV mul1mx tr_row_mx.
  by rewrite linearN /= col_mxKd !mxE.
Qed.

Lemma strut_forces_balance_the_load_witness :
  exists self (C : 'I_3 -> 'I_6 -> 'I_1 -> R),
    [/\ Haptick.__init__ 1 0 1 0 1 = Ok self,
        Haptick.truss_force_components self (A2 demo_force) (A2 demo_torque)
        = Ok (A3 C)
      & forall k n, \sum_i C k i n = - demo_force n k].
Proof.
have Hh := demo_init (oner_neq0 R).
have [C [H1 H2 _]] := strut_forces_balance_the_load demo_force demo_torque Hh.
by eexists; exists C; split; [exact: Hh | exact: H1 | exact: H2].
Defined.

(** ** Error and edge behaviour *)

Lemma hstack_A2_mismatch m m' n n' (U : 'M[R]_(m, n)) (V : 'M[R]_(m', n')) :
  m' != m -> np_hstack (A2 U) (A2 V) = Raise ValueError.
Proof. by rewrite /np_hstack; case: eqP. Qed.

(** X9.  Which arguments are refused.  [truss_force_magnitudes] raises
    [ValueError] when force and torque are batches of different sizes, when
    one is a vector and the other a batch, and when their widths do not add
    up to 6.  It checks nothing else: any two widths that add up to 6 are
    accepted, also when the force does not have three components. *)
Theorem magnitudes_shape_errors
    (self : Haptick.t) N N' n1 n2
    (f : 'rV[R]_n1) (t : 'rV[R]_n2)
    (F : 'M[R]_(N, n1)) (T : 'M[R]_(N, n2)) (T' : 'M[R]_(N', n2)) :
  [/\ N' != N ->
      Haptick.truss_force_magnitudes self (A2 F) (A2 T') = Raise ValueError,
      Haptick.truss_force_magnitudes self (A1 f) (A2 T) = Raise ValueError
      /\ Haptick.truss_force_magnitudes self (A2 F) (A1 t) = Raise ValueError,
      (n1 + n2 != 6)%N ->
      Haptick.truss_force_magnitudes self (A1 f) (A1 t) = Raise ValueError
      /\ Haptick.truss_force_magnitudes self (A2 F) (A2 T) = Raise ValueError
    & (n1 + n2 = 6)%N ->
      (exists b : 'M[R]_(6, 1),
         Haptick.truss_force_magnitudes self (A1 f) (A1 t) = Ok (A2 b))
      /\ (exists B : 'M[R]_(6, N),
            Haptick.truss_force_magnitudes self (A2 F) (A2 T) = Ok (A2 B))].
Proof.
split.
- by move=> NN; rewrite /Haptick.truss_force_magnitudes hstack_A2_mismatch.
- by [].
- move=> n6; rewrite /Haptick.truss_force_magnitudes hstack_A2 /=.
  by rewrite !matmul_A2_mismatch.
- move=> n6; rewrite /Haptick.truss_force_magnitudes hstack_A2 /=.
  move: (row_mx f t) (row_mx F T); rewrite n6 => v V.
  by rewrite !matmul_A2; split; eexists.
Qed.

Lemma magnitudes_shape_errors_witness :
  exists self,
    [/\ Haptick.__init__ 1 0 1 0 1 = Ok self,
        Haptick.truss_force_magnitudes self
          (A2 (0 : 'M[R]_(2, 3))) (A2 (0 : 'M[R]_(1, 3))) = Raise ValueError,
        Haptick.truss_force_magnitudes self
          (A1 (0 : 'rV[R]_3)) (A1 (0 : 'rV[R]_2)) = Raise ValueError
      & exists b : 'M[R]_(6, 1),
          Haptick.truss_force_magnitudes self
            (A1 (0 : 'rV[R]_2)) (A1 (0 : 'rV[R]_4)) = Ok (A2 b)].
Proof.
have [self Hh] : exists self, Haptick.__init__ 1 0 1 0 1 = Ok self.
  by eexists; exact: (demo_init (oner_neq0 R)).
exists self; split; first exact: Hh.
- have [H _ _ _] := @magnitudes_shape_errors self 2 1 3 3 0 0 0 0 0.
  exact: H.
- have [_ _ H _] := @magnitudes_shape_errors self 1 1 3 2 0 0 0 0 0.
  by have [] := H isT.
- have [_ _ _ H] := @magnitudes_shape_errors self 1 1 2 4 0 0 0 0 0.
  by have [] := H (erefl _).
Defined.

(** X11.  A hexapod of height zero never gives a working instance: the
    constructor raises [ZeroDivisionError], raises [LinAlgError] (all the
    struts lie in one plane and the strut matrix is singular), or goes on
    with NaN in the unit forces (a strut of length zero), which is the
    outcome [Nan]. *)
Theorem flat_hexapod_gives_no_working_instance
    (top_radius top_separation bottom_radius bottom_separation : R) :
  let r := Haptick.__init__ top_radius top_separation bottom_radius
             bottom_separation 0 in
  (forall self, r <> Ok self)
  /\ [\/ r = Raise ZeroDivisionError, r = Raise LinAlgError | r = Nan].
Proof.
move=> r; rewrite /r init_cases.
case: ifP => _; first by split=> //; constructor 1.
case: ifP => _; first by split=> //; constructor 3.
rewrite (negPf (flat_plucker_singular _ _ _ _)).
by split=> //; constructor 2.
Qed.

(** ** The shape of the hexapod *)

Lemma law_of_cosines (a b x y : R) :
  ((a * cos x - b * cos y) * (a * cos x - b * cos y)
   + (a * sin x - b * sin y) * (a * sin x - b * sin y)
   = a * a + b * b - 2 * a * b * cos (x - y))%Re.
Proof.
rewrite cos_minus.
have := sin2_cos2 x; have := sin2_cos2 y; rewrite /Rsqr.
move: (cos x) (sin x) (cos y) (sin y) => cx sx cy sy Hy Hx.
have -> : ((a * cx - b * cy) * (a * cx - b * cy)
           + (a * sx - b * sy) * (a * sx - b * sy)
           = a * a * (sx * sx + cx * cx) + b * b * (sy * sy + cy * cy)
             - 2 * a * b * (cx * cy + sx * sy))%Re by ring.
by rewrite Hx Hy; ring.
Qed.

Lemma cos_2PI_minus x : cos (2 * PI - x) = cos x.
Proof.
rewrite -(cos_neg x) -(cos_period (- x) 1) /=.
by congr cos; lra.
Qed.

(** The squared length of every strut, by the law of cosines: seen from
    above, the two ends of a strut are [PI / 3] minus the two half
    separations apart. *)
Lemma strut_length_sqr tr ts br bs h j :
  let d := Haptick.truss_vectors (struts tr ts br bs h) in
  \sum_i d i j * d i j
  = (tr * tr + br * br
     - 2 * tr * br * cos (PI / 3 - 0.5 * ts / tr - 0.5 * bs / br)
     + h * h)%Re.
Proof.
move=> d; rewrite /d !big_ord_recl big_ord0 /Haptick.truss_vectors /struts /=.
rewrite /top_joints /bottom_joints /top_angles /bottom_angles /np_deg2rad.
ord6 j; rewrite !mxE /= ?inordK //=; to_real;
set A := (X in cos X); set B := (X in (_ * cos A + - (_ * cos X))%Re);
set g := (X in _ = (_ + - (_ * cos X) + _)%Re);
(have -> : cos g = cos (A - B) by
   first [ congr cos; rewrite /g /A /B; lra
         | rewrite -(cos_neg (A - B)); congr cos; rewrite /g /A /B; lra
         | rewrite -(cos_2PI_minus (A - B)); congr cos; rewrite /g /A /B; lra ]);
have := law_of_cosines tr br A B;
move: (cos A) (sin A) (cos B) (sin B) (cos (A - B)) => cA sA cB sB cAB;
by move=> H; lra.
Qed.

(** X12.  All six struts of a constructed instance have the same length,
    given by the law of cosines from the two radii, the angle between the
    ends of a strut seen from above, and the height. *)
Theorem struts_have_equal_length
    (top_radius top_separation bottom_radius bottom_separation height : R)
    (self : Haptick.t) (j : 'I_6) :
  Haptick.__init__ top_radius top_separation bottom_radius bottom_separation
    height = Ok self ->
  np_linalg_norm_axis0 (Haptick.truss_vectors (Haptick.trusses self)) ord0 j
  = sqrt (top_radius * top_radius + bottom_radius * bottom_radius
          - 2 * top_radius * bottom_radius
            * cos (PI / 3 - 0.5 * top_separation / top_radius
                   - 0.5 * bottom_separation / bottom_radius)
          + height * height)%Re.
Proof.
move=> /init_OkP [_ _ _ _ ->] /=.
by rewrite mxE; congr sqrt; exact: strut_length_sqr.
Qed.

Lemma struts_have_equal_length_witness :
  exists self,
    Haptick.__init__ 1 0 1 0 1 = Ok self
    /\ np_linalg_norm_axis0
         (Haptick.truss_vectors (Haptick.trusses self)) ord0 ord0
       = sqrt (1 * 1 + 1 * 1 - 2 * 1 * 1 * cos (PI / 3 - 0.5 * 0 / 1 - 0.5 * 0 / 1)
               + 1 * 1)%Re.
Proof.
have Hh := demo_init (oner_neq0 R).
eexists; split; first exact: Hh.
exact: (struts_have_equal_length ord0 Hh).
Defined.

(** ** Mirroring the hexapod in the plane of its bottom ring *)

Section Mirror.

Variables top_radius top_separation bottom_radius bottom_separation height : R.

Let flip_z : 'rV[R]_3 := \row_k (if (k : nat) == 2%N then -1 else 1).
Let flip_xy : 'rV[R]_3 := \row_k (if (k : nat) == 2%N then 1 else -1).
Let D : 'M[R]_(3 + 3) := diag_mx (row_mx flip_z flip_xy).

Let g h := struts top_radius top_separation bottom_radius bottom_separation h.
Let L h := strut_lengths top_radius top_separation bottom_radius
             bottom_separation h.
Let U h := unit_directions top_radius top_separation bottom_radius
             bottom_separation h.
Let P h : 'M[R]_(3 + 3, 6) :=
  plucker_matrix top_radius top_separation bottom_radius bottom_separation h.

Lemma mirror_lengths : L (- height) = L height.
Proof.
apply/rowP => j; rewrite /L /strut_lengths !mxE !strut_length_sqr.
by congr sqrt; to_real; ring.
Qed.

Lemma mirror_top i j : (g (- height)).1 i j = flip_z ord0 i * (g height).1 i j.
Proof.
rewrite /g /struts /top_joints /= /Haptick._joint_positions.
rewrite 2![np_vstack3 _ _ _ _ _]mxE [flip_z _ _]mxE.
by ord3 i; rewrite /= ?mul1r // !mxE; to_real; ring.
Qed.

Lemma truss_vectorsE (t : 'M[R]_(3, 6) * 'M[R]_(3, 6)) i j :
  Haptick.truss_vectors t i j = t.1 i j - t.2 i j.
Proof. by rewrite /Haptick.truss_vectors !mxE. Qed.

Lemma mirror_vectors i j :
  Haptick.truss_vectors (g (- height)) i j
  = flip_z ord0 i * Haptick.truss_vectors (g height) i j.
Proof.
rewrite !truss_vectorsE mirror_top mulrBr; congr (_ - _).
rewrite /g /struts /= [np_roll_m1 _ _ _]mxE.
rewrite /bottom_joints /Haptick._joint_positions.
rewrite [np_vstack3 _ _ _ _ _]mxE [flip_z _ _]mxE.
by ord3 i; rewrite /= ?mul1r // !mxE; to_real; lra.
Qed.

Lemma mirror_unit i j : U (- height) i j = flip_z ord0 i * U height i j.
Proof.
rewrite /U /unit_directions 2![(\matrix_(_, _) _) i j]mxE.
by rewrite -/(L _) -/(L _) mirror_lengths mirror_vectors mulrA.
Qed.

Lemma mirror_moments i j :
  np_cross_axis0 (g (- height)).1 (U (- height)) i j
  = flip_xy ord0 i * np_cross_axis0 (g height).1 (U height) i j.
Proof.
rewrite 2![np_cross_axis0 _ _ _ _]mxE !mirror_top !mirror_unit.
have E m (k : 'I_3) : (m %% 3)%N = k -> inord (m %% 3) = k :> 'I_3.
  by move=> ->; rewrite inord_val.
ord3 i; rewrite /=.
- rewrite ?(E 1%N (lift ord0 ord0)) // ?(E 2%N (lift ord0 (lift ord0 ord0))) //.
  by rewrite !mxE /=; to_real; ring.
- rewrite ?(E 2%N (lift ord0 (lift ord0 ord0))) // ?(E 3%N ord0) //.
  by rewrite !mxE /=; to_real; ring.
- rewrite ?(E 3%N ord0) // ?(E 4%N (lift ord0 ord0)) //.
  by rewrite !mxE /=; to_real; ring.
Qed.

Lemma mirror_plucker : P (- height) = D *m P height.
Proof.
apply/matrixP => i j; rewrite /D mul_diag_mx [RHS]mxE /P /plucker_matrix.
case: (split_ordP i) => k Ei; subst i.
- by rewrite !col_mxEu row_mxEl; exact: mirror_unit.
- by rewrite !col_mxEd row_mxEr; exact: mirror_moments.
Qed.

Lemma mirror_involution : D *m D = 1%:M.
Proof.
rewrite /D mulmx_diag -diag_const_mx; congr diag_mx.
apply/rowP => i; rewrite !mxE.
case: (split_ordP i) => k Ei; subst i; rewrite ?row_mxEl ?row_mxEr !mxE;
  by case: ifP => _; to_real; ring.
Qed.

Lemma mirror_unitmx : (P (- height) \in unitmx) = (P height \in unitmx).
Proof.
have [Du _] := mulmx1_unit mirror_involution.
by rewrite mirror_plucker unitmx_mul Du.
Qed.

Lemma mirror_inverse :
  P height \in unitmx -> invmx (P (- height)) = invmx (P height) *m D.
Proof.
move=> Pu; have Pu' : P (- height) \in unitmx by rewrite mirror_unitmx.
have H : P (- height) *m (invmx (P height) *m D) = 1%:M.
  rewrite mirror_plucker -mulmxA [P height *m _]mulmxA mulmxV //.
  by rewrite mul1mx mirror_involution.
by rewrite -[LHS]mulmx1 -H mulmxA mulVmx // mul1mx.
Qed.

End Mirror.

(** X13.  Negating the height mirrors the hexapod in the plane of its
    bottom ring.  Where the constructor succeeds for [height] it succeeds
    for [- height]; the unit forces of the mirrored instance are those of
    the original with the z component negated; and its strut forces for a
    load are those of the original for the mirrored load (force z negated,
    torque x and y negated). *)
Theorem negated_height_mirrors_the_hexapod
    (top_radius top_separation bottom_radius bottom_separation height : R)
    (self : Haptick.t) (F T : 'rV[R]_3) :
  Haptick.__init__ top_radius top_separation bottom_radius bottom_separation
    height = Ok self ->
  exists mirrored,
    [/\ Haptick.__init__ top_radius top_separation bottom_radius
          bottom_separation (- height) = Ok mirrored,
        forall i j,
          Haptick._unit_forces mirrored i j
          = if (i : nat) == 2%N then - Haptick._unit_forces self i j
            else Haptick._unit_forces self i j
      & Haptick.truss_force_magnitudes mirrored (A1 F) (A1 T)
        = Haptick.truss_force_magnitudes self
            (A1 (\row_k (if (k : nat) == 2%N then - F ord0 k else F ord0 k)))
            (A1 (\row_k (if (k : nat) == 2%N then T ord0 k else - T ord0 k)))].
Proof.
move=> built; have [t0 b0 L0 Pu Eself] := init_OkP built.
have built' :
  Haptick.__init__ top_radius top_separation bottom_radius bottom_separation
    (- height)
  = Ok (Haptick.Make top_radius top_separation bottom_radius
          bottom_separation (- height)
          (struts top_radius top_separation bottom_radius bottom_separation
             (- height))
          (unit_directions top_radius top_separation bottom_radius
             bottom_separation (- height))
          (plucker_matrix top_radius top_separation bottom_radius
             bottom_separation (- height))
          (invmx (plucker_matrix top_radius top_separation bottom_radius
                    bottom_separation (- height)))).
  rewrite init_cases (negPf t0) (negPf b0) /= mirror_lengths.
  have -> /= : [forall j, strut_lengths top_radius top_separation
                            bottom_radius bottom_separation height ord0 j
                          != 0] by apply/forallP.
  by rewrite mirror_unitmx Pu.
eexists; split; first exact: built'.
- move=> i j; rewrite Eself /= mirror_unit mxE.
  by case: ifP => _; rewrite ?mulN1r ?mul1r.
- rewrite !magnitudes_single Eself /= mirror_inverse //.
  congr (Ok (A2 (- _))); rewrite -mulmxA; congr (_ *m _).
  apply/matrixP => i j; rewrite mul_diag_mx [LHS]mxE.
  rewrite [(row_mx F T)^T i j]mxE [RHS]mxE.
  case: (split_ordP i) => k Ei; subst i; rewrite ?row_mxEl ?row_mxEr !mxE;
    by case: ifP => _; rewrite ?mulN1r ?mul1r (ord1 j).
Qed.

Lemma negated_height_mirrors_the_hexapod_witness :
  exists self mirrored,
    [/\ Haptick.__init__ 1 0 1 0 1 = Ok self,
        Haptick.__init__ 1 0 1 0 (- 1) = Ok mirrored
      & Haptick._unit_forces mirrored (inord 2) ord0
        = - Haptick._unit_forces self (inord 2) ord0].
Proof.
have Hh := demo_init (oner_neq0 R).
have [mirrored [H1 H2 _]] := negated_height_mirrors_the_hexapod 0 0 Hh.
eexists; exists mirrored; split; [exact: Hh | exact: H1 |].
by rewrite H2 (@inordK 2 2).
Defined.

(** ** The calibrated model *)

(** X14.  The built-in table undoes [applied] of the calibrated model:
    multiplied with the wrenches that [applied] returns for a batch of
    strut forces, and negated, it gives those strut forces back. *)
Theorem calibration_table_undoes_applied
    (args : seq pyval) (kwargs : seq (string * pyval))
    N (S : 'M[R]_(N, 6)) :
  exists cal Wf Wt,
    [/\ Calibrated.__init__ args kwargs = Ok cal,
        Calibrated.applied cal (A2 S) = Ok (A2 Wf, A2 Wt)
      & - ((np_array6 Calibrated.TABLE : 'M[R]_(6, 3 + 3)) *m col_mx Wf Wt)
        = S^T].
Proof.
do 3!eexists; split; first exact: calibrated_init.
- by rewrite calibrated_applied_batch.
- rewrite vsubmxK /= mulmxN opprK mulmxA mulmxV ?mul1mx //.
  exact: TABLE_unit.
Qed.
